(** * snr.py: signal-to-noise ratio of a fitted peak

    Shallow embeddings of [snr] from [src/snr.py] and of the two line-shape
    functions it defines, followed by the properties the specification
    states about them.  The program is embedded twice.

    Over the reals.  numpy's float64 values are modelled as real numbers
    with the IEEE special values added ([float] below); rounding and
    overflow are idealised away, so finite arithmetic is exact real
    arithmetic.  What is kept of IEEE is division by zero and the
    arithmetic of infinities and NaN.  Zero carries no sign in this model.
    This is the model for the algebra of the line shapes (the value at the
    centre and at half the width, the symmetries, the constant 0.693) and
    for those facts about a call that hold whatever indices the search
    returns.

    Over binary64 (module [F64]).  The same code on primitive floats, which
    are IEEE 754 doubles rounded to nearest even: every difference,
    product, quotient and comparison is the one numpy performs, with its
    rounding, overflow, underflow and NaN.  [np.exp] and matplotlib are
    external there, and a matplotlib call can fail.  This is the model for
    which index the search returns, where the noise window falls, which
    value comes back and what plotting can add.

    scipy's [curve_fit] is an external solver: both developments are
    parametric in it. *)

From Stdlib Require Import Reals Lra Lia String List Bool Arith ZArith.
From Stdlib Require Floats.
Import ListNotations.

Open Scope R_scope.

(** ** float64 values *)

Inductive float : Type :=
| Fin (r : R)
| PInf
| NInf
| NaN.

Definition is_finite (x : float) : bool :=
  match x with Fin _ => true | _ => false end.

Definition is_infinite (x : float) : bool :=
  match x with PInf | NInf => true | _ => false end.

(** The infinity with the sign of [a], NaN when [a] is zero. *)
Definition signed_inf (a : R) : float :=
  if Req_dec_T a 0 then NaN
  else if Rlt_dec 0 a then PInf else NInf.

Definition fadd (x y : float) : float :=
  match x, y with
  | NaN, _ | _, NaN => NaN
  | Fin a, Fin b => Fin (a + b)
  | PInf, NInf | NInf, PInf => NaN
  | PInf, _ | _, PInf => PInf
  | NInf, _ | _, NInf => NInf
  end.

Definition fmul (x y : float) : float :=
  match x, y with
  | NaN, _ | _, NaN => NaN
  | Fin a, Fin b => Fin (a * b)
  | Fin a, PInf | PInf, Fin a => signed_inf a
  | Fin a, NInf | NInf, Fin a => signed_inf (- a)
  | PInf, PInf | NInf, NInf => PInf
  | PInf, NInf | NInf, PInf => NInf
  end.

(** numpy's [true_divide]: a zero divisor gives an infinity or NaN (and a
    RuntimeWarning), never an exception. *)
Definition fdiv (x y : float) : float :=
  match x, y with
  | NaN, _ | _, NaN => NaN
  | Fin a, Fin b => if Req_dec_T b 0 then signed_inf a else Fin (a / b)
  | Fin _, PInf | Fin _, NInf => Fin 0
  | PInf, Fin b => if Rlt_dec b 0 then NInf else PInf
  | NInf, Fin b => if Rlt_dec b 0 then PInf else NInf
  | PInf, PInf | PInf, NInf | NInf, PInf | NInf, NInf => NaN
  end.

Definition np_square (x : float) : float := fmul x x.

Definition np_exp (x : float) : float :=
  match x with
  | Fin a => Fin (exp a)
  | PInf => PInf
  | NInf => Fin 0
  | NaN => NaN
  end.

(** ** Exceptions, results, and the effects of a call *)

Inductive exn : Type :=
| ValueError
| KeyError
| RuntimeError
| TypeError.

Definition exn_name (e : exn) : string :=
  match e with
  | ValueError => "ValueError"
  | KeyError => "KeyError"
  | RuntimeError => "RuntimeError"
  | TypeError => "TypeError"
  end.

Inductive result (A : Type) : Type :=
| Ok (a : A)
| Raise (e : exn).

Arguments Ok {A} a.
Arguments Raise {A} e.

(** What a call does besides returning: the solver calls it makes, with
    their arguments, and the drawing it asks for. *)
Inductive event : Type :=
| CurveFit (shape : string) (xdata ydata : list R) (p0 : R * R * R)
| PlotCurve (xs : list R) (ys : list float)
| SaveFigure (path : string).

(** A computation yields the events it performed, in order, and a value or
    the exception that stopped it. *)
Definition M (A : Type) : Type := (list event * result A)%type.

Definition ret {A} (a : A) : M A := ([], Ok a).

Definition bind {A B} (m : M A) (f : A -> M B) : M B :=
  match m with
  | (l, Ok a) => let (l', r) := f a in (l ++ l', r)
  | (l, Raise e) => (l, Raise e)
  end.

Definition lift {A} (r : result A) : M A := ([], r).

Definition emit (ev : event) : M unit := ([ev], Ok tt).

Notation "x <- m ;; k" := (bind m (fun x => k))
  (at level 61, m at next level, right associativity).
Notation "' pat <- m ;; k" := (bind m (fun x => match x with pat => k end))
  (at level 61, pat pattern, m at next level, right associativity).
Notation "m ;;; k" := (bind m (fun _ => k))
  (at level 61, right associativity).

Definition events {A} (m : M A) : list event := fst m.
Definition outcome {A} (m : M A) : result A := snd m.

(** ** numpy and builtin helpers *)

(** [a - t] with the scalar broadcast, then [np.abs]. *)
Definition np_sub (a : list R) (t : R) : list R := map (fun x => x - t) a.
Definition np_abs (a : list R) : list R := map Rabs a.

(** Left-to-right scan keeping the first smallest entry. *)
Fixpoint argmin_from (best_i : nat) (best : R) (i : nat) (l : list R) : nat :=
  match l with
  | [] => best_i
  | x :: l' =>
      if Rlt_dec x best then argmin_from i x (S i) l'
      else argmin_from best_i best (S i) l'
  end.

(** [np.argmin]: index of the first minimum; ValueError on an empty array. *)
Definition np_argmin (l : list R) : result nat :=
  match l with
  | [] => Raise ValueError
  | x :: l' => Ok (argmin_from 0 x 1 l')
  end.

(** [a[i:j]] for non-negative [i], [j]. *)
Definition slice {A} (a : list A) (i j : nat) : list A :=
  firstn (j - i) (skipn i a).

Definition fold_max (x : R) (l : list R) : R := fold_left Rmax l x.
Definition fold_min (x : R) (l : list R) : R := fold_left Rmin l x.

(** [np.max] and the builtins [max], [min]: ValueError on an empty
    sequence. *)
Definition seq_max (l : list R) : result R :=
  match l with
  | [] => Raise ValueError
  | x :: l' => Ok (fold_max x l')
  end.

Definition seq_min (l : list R) : result R :=
  match l with
  | [] => Raise ValueError
  | x :: l' => Ok (fold_min x l')
  end.

(** [np.average] of the two bounds. *)
Definition np_average (p : R * R) : R := (fst p + snd p) / 2.

(** [d[k]] on a dict written as its list of items. *)
Fixpoint dict_get {V} (d : list (string * V)) (k : string) : result V :=
  match d with
  | [] => Raise KeyError
  | (k', v) :: d' => if String.eqb k' k then Ok v else dict_get d' k
  end.

(** [sub_zero + 1]. *)
Definition bool_plus_one (b : bool) : R := (if b then 1 else 0) + 1.

(** ** The line shapes *)

Definition lorentzian (x_data : list R) (max_pos width height : R) : list float :=
  map (fun xi =>
         let x := fdiv (Fin (2 * (max_pos - xi))) (Fin width) in
         fdiv (Fin height) (fadd (Fin 1) (np_square x)))
      x_data.

Definition gaussian (x_data : list R) (max_pos width height : R) : list float :=
  map (fun xi =>
         let x := fdiv (Fin (2 * (max_pos - xi))) (Fin width) in
         fmul (Fin height) (np_exp (fmul (Fin (- 0.693)) (np_square x))))
      x_data.

(** ** snr *)

Definition model : Type := list R -> R -> R -> R -> list float.
Definition solver : Type :=
  model -> list R -> list R -> R * R * R -> result (R * R * R).

(** Index of the entry of [time_data] nearest to [t]. *)
Definition nearest (time_data : list R) (t : R) : result nat :=
  np_argmin (np_abs (np_sub time_data t)).

Section Snr.

Variable curve_fit : solver.

Definition fit (shape : string) (f : model) (x_data y_data : list R)
           (p0 : R * R * R) : M (R * R * R) :=
  emit (CurveFit shape x_data y_data p0) ;;;
  lift (curve_fit f x_data y_data p0).

Definition window (time_data : list R) (time_range : R * R) : result (nat * nat) :=
  match nearest time_data (fst time_range) with
  | Raise e => Raise e
  | Ok w0 =>
      match nearest time_data (snd time_range) with
      | Raise e => Raise e
      | Ok w1 => Ok (w0, w1)
      end
  end.

(** Lines 104-118: the three curves, the axis limits, the file. *)
Definition draw (plot : bool) (plot_path : option string)
           (x_data y_data : list R) (pl pg : R * R * R) : M unit :=
  if plot then
    emit (PlotCurve x_data (map Fin y_data)) ;;;
    (let '(max_pos, width, height) := pl in
     emit (PlotCurve x_data (lorentzian x_data max_pos width height))) ;;;
    (let '(max_pos, width, height) := pg in
     emit (PlotCurve x_data (gaussian x_data max_pos width height))) ;;;
    _ <- lift (seq_min x_data) ;;
    _ <- lift (seq_max x_data) ;;
    _ <- lift (seq_min y_data) ;;
    _ <- lift (seq_max y_data) ;;
    match plot_path with
    | Some path => emit (SaveFigure path)
    | None => ret tt
    end
  else ret tt.

(** [title] only captions the figure and is left out, as are the legend
    and the axis labels. *)
Definition snr (time_data signal_data noise_data : list R)
           (time_range : R * R) (line_shape : string) (sub_zero : bool)
           (plot : bool) (plot_path : option string) : M float :=
  ' (w0, w1) <- lift (window time_data time_range) ;;
  let x_data := slice time_data w0 w1 in
  let y_data := slice signal_data w0 w1 in
  let avg := np_average time_range in
  ymax <- lift (seq_max y_data) ;;
  let initial_params := (avg, 1, ymax) in
  pl <- fit "lorentzian" lorentzian x_data y_data initial_params ;;
  pg <- fit "gaussian" gaussian x_data y_data initial_params ;;
  let params := [("lorentzian"%string, pl); ("gaussian"%string, pg)] in
  ' (max_pos, width, height) <- lift (dict_get params line_shape) ;;
  let width := Rabs width in
  let begin := max_pos - width * 10 in
  let end_ := max_pos + width * 10 in
  b <- lift (nearest time_data begin) ;;
  e <- lift (nearest time_data end_) ;;
  let noise_window := slice noise_data b e in
  let signal := height in
  hi <- lift (seq_max noise_window) ;;
  lo <- lift (seq_min noise_window) ;;
  let noise := hi - lo in
  let snr := fdiv (Fin (bool_plus_one sub_zero * signal)) (Fin noise) in
  draw plot plot_path x_data y_data pl pg ;;;
  ret snr.

End Snr.

(** ** Specification-side notions *)

(** [i] is the first position of a smallest entry of [l]. *)
Definition first_min (l : list R) (i : nat) : Prop :=
  (i < length l)%nat /\
  (forall j, (j < length l)%nat -> nth i l 0 <= nth j l 0) /\
  (forall j, (j < i)%nat -> nth i l 0 < nth j l 0).

(** [i] is the index of the entry of [time_data] closest to [t]; among
    equally close entries, the earliest. *)
Definition closest (time_data : list R) (t : R) (i : nat) : Prop :=
  (i < length time_data)%nat /\
  (forall j, (j < length time_data)%nat ->
             Rabs (nth i time_data 0 - t) <= Rabs (nth j time_data 0 - t)) /\
  (forall j, (j < i)%nat ->
             Rabs (nth i time_data 0 - t) < Rabs (nth j time_data 0 - t)).

Definition increasing (l : list R) : Prop :=
  forall i j, (i < j)%nat -> (j < length l)%nat -> nth i l 0 < nth j l 0.

Definition nondecreasing (l : list R) : Prop :=
  forall i j, (i < j)%nat -> (j < length l)%nat -> nth i l 0 <= nth j l 0.

Definition is_max (l : list R) (m : R) : Prop :=
  In m l /\ forall x, In x l -> x <= m.

Definition is_min (l : list R) (m : R) : Prop :=
  In m l /\ forall x, In x l -> m <= x.

(** Both fits of a call succeed, with parameters [pl] and [pg]: the window
    is found, holds signal points, and the solver returns for each shape. *)
Definition fits (curve_fit : solver) (time_data signal_data : list R)
           (time_range : R * R) (pl pg : R * R * R) : Prop :=
  exists w0 w1 ymax,
    window time_data time_range = Ok (w0, w1) /\
    seq_max (slice signal_data w0 w1) = Ok ymax /\
    curve_fit lorentzian (slice time_data w0 w1) (slice signal_data w0 w1)
              (np_average time_range, 1, ymax) = Ok pl /\
    curve_fit gaussian (slice time_data w0 w1) (slice signal_data w0 w1)
              (np_average time_range, 1, ymax) = Ok pg.

(** [p] is the fit of the shape the caller named. *)
Definition chosen (line_shape : string) (pl pg p : R * R * R) : Prop :=
  (line_shape = "gaussian"%string /\ p = pg) \/
  (line_shape = "lorentzian"%string /\ p = pl).

(** Scaled height over the peak-to-peak amplitude of a noise slice. *)
Definition peak_to_peak_ratio (scale height : R) (noise_window : list R)
  : result float :=
  match seq_max noise_window with
  | Raise e => Raise e
  | Ok hi =>
      match seq_min noise_window with
      | Raise e => Raise e
      | Ok lo => Ok (fdiv (Fin (scale * height)) (Fin (hi - lo)))
      end
  end.

(** The computation stops with an exception of the given class name. *)
Definition raises_named {A} (name : string) (m : M A) : Prop :=
  exists e, outcome m = Raise e /\ exn_name e = name.

(** No solver call among the events. *)
Definition no_fit (l : list event) : Prop :=
  forall shape x y p0, ~ In (CurveFit shape x y p0) l.

(** The value is a real number that is not negative. *)
Definition nonnegative_real (v : float) : Prop :=
  exists r, v = Fin r /\ 0 <= r.

(** The call stops with an exception or returns an infinity. *)
Definition error_or_infinite (r : result float) : Prop :=
  (exists e, r = Raise e) \/ (exists v, r = Ok v /\ is_infinite v = true).


(** ** Solvers and traces for the examples *)

(** A solver that answers [p] whatever it is asked. *)
Definition fit_to (p : R * R * R) : solver := fun _ _ _ _ => Ok p.

Definition time3 : list R := [0; 1; 2].

(** A peak, a peak turned upside down (a Lorentzian of centre 1, width 2
    and height -1 sampled on [time3]) and a flat line. *)
Definition peak3 : list R := [0; 1; 0].
Definition dip3 : list R := [- (1 / 2); - 1; - (1 / 2)].
Definition flat3 : list R := [0; 0; 0].

(** A blank of peak-to-peak amplitude 1/2. *)
Definition blank3 : list R := [0; 1 / 2; 0].

(** The same on five points. *)
Definition time5 : list R := [0; 1; 2; 3; 4].

(** A Lorentzian of centre 2, width 2 and height -1 sampled on [time5], and
    a blank of peak-to-peak amplitude 1/2. *)
Definition dip5 : list R := [- (1 / 5); - (1 / 2); - 1; - (1 / 2); - (1 / 5)].
Definition blank5 : list R := [0; 1 / 2; 0; 0; 0].

(** ** Notions for the further properties *)

(** The event asks for something to be drawn or written. *)
Definition is_drawing (ev : event) : bool :=
  match ev with
  | CurveFit _ _ _ _ => false
  | PlotCurve _ _ | SaveFigure _ => true
  end.

Definition is_saving (ev : event) : bool :=
  match ev with
  | SaveFigure _ => true
  | _ => false
  end.

Definition result_map {A B} (f : A -> B) (r : result A) : result B :=
  match r with
  | Ok a => Ok (f a)
  | Raise e => Raise e
  end.


(** A trace with a constant added to, or a factor applied to, every
    entry. *)
Definition offset_by (d : R) (l : list R) : list R := map (fun x => x + d) l.

(** A solver that fails with [e] whatever it is asked. *)
Definition fit_fails (e : exn) : solver := fun _ _ _ _ => Raise e.

(** * The same program on binary64 numbers *)
Module F64.

Import PrimFloat.
Local Open Scope float_scope.

(** The decimal constants of the source, as the doubles Python reads. *)
Definition c0693 : float := 0x1.62d0e56041893p-1.
Definition c1_2 : float := 0x1.3333333333333p+0.

(** What a call does besides returning: the solver calls and the
    matplotlib calls, in order, with their arguments. *)
Inductive event : Type :=
| CurveFit (shape : string) (xdata ydata : list float) (p0 : float * float * float)
| Subplots
| Plot (xs ys : list float)
| SetTitle (title : string) (snr : float)
| Legend
| SetXlabel
| SetYlabel
| SetXlim (lo hi : float)
| SetYlim (lo hi : float)
| SaveFig (path : string).

Definition M (A : Type) : Type := (list event * result A)%type.

Definition ret {A} (a : A) : M A := ([], Ok a).

Definition bind {A B} (m : M A) (f : A -> M B) : M B :=
  match m with
  | (l, Ok a) => let (l', r) := f a in (l ++ l', r)
  | (l, Raise e) => (l, Raise e)
  end.

Definition lift {A} (r : result A) : M A := ([], r).

Definition events {A} (m : M A) : list event := fst m.
Definition outcome {A} (m : M A) : result A := snd m.

Declare Scope run_scope.
Notation "x <- m ;; k" := (bind m (fun x => k))
  (at level 61, m at next level, right associativity) : run_scope.
Notation "' pat <- m ;; k" := (bind m (fun x => match x with pat => k end))
  (at level 61, pat pattern, m at next level, right associativity) : run_scope.
Notation "m ;;; k" := (bind m (fun _ => k))
  (at level 61, right associativity) : run_scope.
Local Open Scope run_scope.

(** [a - t] with the scalar broadcast, then [np.abs]. *)
Definition np_sub (a : list float) (t : float) : list float :=
  map (fun x => x - t) a.
Definition np_abs (a : list float) : list float := map abs a.

(** numpy's argmin loop: a later entry replaces the current one when it is
    not [>=] it; the scan stops at the first NaN. *)
Fixpoint argmin_from (min_ind : nat) (mp : float) (i : nat) (ip : list float)
  : nat :=
  match ip with
  | [] => min_ind
  | x :: ip' =>
      if negb (mp <=? x) then
        if is_nan x then i else argmin_from i x (S i) ip'
      else argmin_from min_ind mp (S i) ip'
  end.

Definition np_argmin (a : list float) : result nat :=
  match a with
  | [] => Raise ValueError
  | mp :: ip => Ok (if is_nan mp then 0%nat else argmin_from 0 mp 1 ip)
  end.

(** [np.maximum]: the first argument unless the second is larger; a NaN
    wins. *)
Definition np_maximum (a b : float) : float :=
  if (b <=? a) || is_nan a then a else b.

(** [np.max]: ValueError on an empty array. *)
Definition np_max (a : list float) : result float :=
  match a with
  | [] => Raise ValueError
  | x :: a' => Ok (fold_left np_maximum a' x)
  end.

(** The builtins [max] and [min]: the first item, replaced by a later one
    that is [>] (respectively [<]) it. *)
Definition py_max (a : list float) : result float :=
  match a with
  | [] => Raise ValueError
  | x :: a' => Ok (fold_left (fun m y => if m <? y then y else m) a' x)
  end.

Definition py_min (a : list float) : result float :=
  match a with
  | [] => Raise ValueError
  | x :: a' => Ok (fold_left (fun m y => if y <? m then y else m) a' x)
  end.

(** [np.average] of the two bounds. *)
Definition np_average (p : float * float) : float := (fst p + snd p) / 2.

(** [sub_zero + 1]. *)
Definition bool_plus_one (b : bool) : float := if b then 2 else 1.

Definition nearest (time_data : list float) (t : float) : result nat :=
  np_argmin (np_abs (np_sub time_data t)).

Definition window (time_data : list float) (time_range : float * float)
  : result (nat * nat) :=
  match nearest time_data (fst time_range) with
  | Raise e => Raise e
  | Ok w0 =>
      match nearest time_data (snd time_range) with
      | Raise e => Raise e
      | Ok w1 => Ok (w0, w1)
      end
  end.

Definition model : Type := list float -> float -> float -> float -> list float.
Definition solver : Type :=
  model -> list float -> list float -> float * float * float
  -> result (float * float * float).

Section Snr.

(** libm's exponential, scipy's [curve_fit] and matplotlib are outside the
    program. *)
Variable np_exp : float -> float.
Variable curve_fit : solver.
Variable matplotlib : event -> result unit.

Definition lorentzian (x_data : list float) (max_pos width height : float)
  : list float :=
  map (fun xi =>
         let x := 2 * (max_pos - xi) / width in
         height / (1 + x * x))
      x_data.

Definition gaussian (x_data : list float) (max_pos width height : float)
  : list float :=
  map (fun xi =>
         let x := 2 * (max_pos - xi) / width in
         height * np_exp (- c0693 * (x * x)))
      x_data.

Definition call (ev : event) : M unit := ([ev], matplotlib ev).

Definition fit (shape : string) (f : model) (x_data y_data : list float)
           (p0 : float * float * float) : M (float * float * float) :=
  ([CurveFit shape x_data y_data p0], curve_fit f x_data y_data p0).

(** Lines 104-118. *)
Definition draw (plot : bool) (plot_path : option string) (title : string)
           (x_data y_data : list float) (pl pg : float * float * float)
           (snr : float) : M unit :=
  if plot then
    call Subplots ;;;
    call (Plot x_data y_data) ;;;
    (let '(max_pos, width, height) := pl in
     call (Plot x_data (lorentzian x_data max_pos width height))) ;;;
    (let '(max_pos, width, height) := pg in
     call (Plot x_data (gaussian x_data max_pos width height))) ;;;
    call (SetTitle title snr) ;;;
    call Legend ;;;
    call SetXlabel ;;;
    call SetYlabel ;;;
    xlo <- lift (py_min x_data) ;;
    xhi <- lift (py_max x_data) ;;
    call (SetXlim xlo xhi) ;;;
    ylo <- lift (py_min y_data) ;;
    yhi <- lift (py_max y_data) ;;
    call (SetYlim ylo (yhi * c1_2)) ;;;
    match plot_path with
    | Some path => call (SaveFig path)
    | None => ret tt
    end
  else ret tt.

Definition snr (time_data signal_data noise_data : list float)
           (time_range : float * float) (line_shape : string)
           (sub_zero : bool) (plot : bool) (plot_path : option string)
           (title : string) : M float :=
  ' (w0, w1) <- lift (window time_data time_range) ;;
  let x_data := slice time_data w0 w1 in
  let y_data := slice signal_data w0 w1 in
  let avg := np_average time_range in
  ymax <- lift (np_max y_data) ;;
  let initial_params := (avg, 1, ymax) in
  pl <- fit "lorentzian" lorentzian x_data y_data initial_params ;;
  pg <- fit "gaussian" gaussian x_data y_data initial_params ;;
  let params := [("lorentzian"%string, pl); ("gaussian"%string, pg)] in
  ' (max_pos, width, height) <- lift (dict_get params line_shape) ;;
  let width := abs width in
  let begin := max_pos - width * 10 in
  let end_ := max_pos + width * 10 in
  b <- lift (nearest time_data begin) ;;
  e <- lift (nearest time_data end_) ;;
  let noise_window := slice noise_data b e in
  let signal := height in
  hi <- lift (py_max noise_window) ;;
  lo <- lift (py_min noise_window) ;;
  let noise := hi - lo in
  let snr := bool_plus_one sub_zero * signal / noise in
  draw plot plot_path title x_data y_data pl pg snr ;;;
  ret snr.

(** What is left of a call once the ratio is known, or has failed: the
    drawing, then the value. *)
Definition finish (plot : bool) (plot_path : option string) (title : string)
           (x_data y_data : list float) (pl pg : float * float * float)
           (r : result float) : M float :=
  match r with
  | Raise e => ([], Raise e)
  | Ok v =>
      draw plot plot_path title x_data y_data pl pg v ;;;
      ret v
  end.

End Snr.

(** *** Specification-side notions *)

Definition no_nan (l : list float) : Prop :=
  Forall (fun x => is_nan x = false) l.

(** [i] is the first position of a smallest entry of [l], in the order of
    the floats. *)
Definition first_min (l : list float) (i : nat) : Prop :=
  (i < length l)%nat /\
  (forall j, (j < length l)%nat -> (nth i l 0 <=? nth j l 0) = true) /\
  (forall j, (j < i)%nat -> (nth i l 0 <? nth j l 0) = true).

(** The distance from entry [j] to [t] as the program computes it: the
    rounded difference, without its sign. *)
Definition distance (time_data : list float) (t : float) (j : nat) : float :=
  abs (nth j time_data 0 - t).

(** No computed distance is smaller than that of entry [i], and those of
    the entries before it are larger. *)
Definition closest (time_data : list float) (t : float) (i : nat) : Prop :=
  (i < length time_data)%nat /\
  (forall j, (j < length time_data)%nat ->
             (distance time_data t i <=? distance time_data t j) = true) /\
  (forall j, (j < i)%nat ->
             (distance time_data t i <? distance time_data t j) = true).

Definition is_max (l : list float) (m : float) : Prop :=
  In m l /\ forall x, In x l -> (x <=? m) = true.

Definition is_min (l : list float) (m : float) : Prop :=
  In m l /\ forall x, In x l -> (m <=? x) = true.

(** Both fits of a call succeed, with parameters [pl] and [pg]. *)
Definition fits (np_exp : float -> float) (curve_fit : solver)
           (time_data signal_data : list float) (time_range : float * float)
           (pl pg : float * float * float) : Prop :=
  exists w0 w1 ymax,
    window time_data time_range = Ok (w0, w1) /\
    np_max (slice signal_data w0 w1) = Ok ymax /\
    curve_fit lorentzian (slice time_data w0 w1) (slice signal_data w0 w1)
              (np_average time_range, 1, ymax) = Ok pl /\
    curve_fit (gaussian np_exp) (slice time_data w0 w1)
              (slice signal_data w0 w1) (np_average time_range, 1, ymax)
    = Ok pg.

(** [p] is the fit of the shape the caller named. *)
Definition chosen (line_shape : string) (pl pg p : float * float * float)
  : Prop :=
  (line_shape = "gaussian"%string /\ p = pg) \/
  (line_shape = "lorentzian"%string /\ p = pl).

(** Scaled height over the peak-to-peak amplitude of a noise slice, in
    the order the program computes it. *)
Definition peak_to_peak_ratio (scale height : float) (noise_window : list float)
  : result float :=
  match py_max noise_window with
  | Raise e => Raise e
  | Ok hi =>
      match py_min noise_window with
      | Raise e => Raise e
      | Ok lo => Ok (scale * height / (hi - lo))
      end
  end.

(** The call stops with an exception or returns an infinity. *)
Definition error_or_infinite (r : result float) : Prop :=
  (exists e, r = Raise e) \/ (exists v, r = Ok v /\ is_infinity v = true).

(** The computation stops with an exception of the given class name. *)
Definition raises_named {A} (name : string) (m : M A) : Prop :=
  exists e, outcome m = Raise e /\ exn_name e = name.

Definition is_curve_fit (ev : event) : bool :=
  match ev with
  | CurveFit _ _ _ _ => true
  | _ => false
  end.

(** *** Stand-ins and traces for the examples *)

(** A solver that answers [p] whatever it is asked, an exponential that is
    never looked at, a matplotlib that never fails. *)
Definition fit_to (p : float * float * float) : solver := fun _ _ _ _ => Ok p.
Definition no_exp : float -> float := fun _ => 0.
Definition quiet : event -> result unit := fun _ => Ok tt.

Definition time3 : list float := [0; 1; 2].
Definition time5 : list float := [0; 1; 2; 3; 4].

(** A peak of height 4 at the middle of [time5], and a blank of
    peak-to-peak amplitude 2. *)
Definition peak5 : list float := [0; 1; 4; 1; 0].
Definition blank5 : list float := [0; 2; 0; 0; 0].

(** The smallest positive double, and a peak of that height. With centre
    2 and width 1 both shapes give exactly this trace on [time5]: the
    height at the centre and, one step away and further, a value below
    half of it, which rounds to zero. *)
Definition tiny : float := 0x1p-1074.
Definition tiny_peak5 : list float := [0; 0; tiny; 0; 0].

(** The Lorentzian of centre 2, width 1 and height 2^1023 sampled on
    [time5]: twice its height is past the largest double. *)
Definition tall : float := 0x1p1023.
Definition tall_peak5 : list float :=
  [0x1.e1e1e1e1e1e1ep1018; 0x1.999999999999ap1020; tall;
   0x1.999999999999ap1020; 0x1.e1e1e1e1e1e1ep1018].

(** A flat trace, a level one, and a Lorentzian of centre 2, width 2 and
    height -1 sampled on [time5]. *)
Definition flat5 : list float := [0; 0; 0; 0; 0].
Definition level5 : list float := [1; 1; 1; 1; 1].
Definition dip5 : list float :=
  [- 0x1.999999999999ap-3; - 0.5; - 1; - 0.5; - 0x1.999999999999ap-3].

(** A peak whose height times 1.2 is past the largest double, and a
    matplotlib that refuses axis limits that are not finite, as
    [set_ylim] does. *)
Definition huge_peak5 : list float := [0; 1; 0x1.cp1023; 1; 0].
Definition strict_limits (ev : event) : result unit :=
  match ev with
  | SetXlim lo hi | SetYlim lo hi =>
      if is_finite lo && is_finite hi then Ok tt else Raise ValueError
  | _ => Ok tt
  end.

End F64.

(** ** Lemmas on the helpers *)

(** Case analysis on the comparisons a goal branches on. *)
Ltac case_reals :=
  repeat match goal with
    | |- context [Req_dec_T ?a ?b] => destruct (Req_dec_T a b)
    | |- context [Rlt_dec ?a ?b] => destruct (Rlt_dec a b)
    | |- context [Rle_dec ?a ?b] => destruct (Rle_dec a b)
    end;
  try lra.


Lemma argmin_from_spec (l : list R) :
  forall best_i best i,
    (argmin_from best_i best i l = best_i /\ Forall (fun x => best <= x) l) \/
    (exists k, argmin_from best_i best i l = (i + k)%nat /\
               (k < length l)%nat /\
               nth k l 0 < best /\
               (forall j, (j < length l)%nat -> nth k l 0 <= nth j l 0) /\
               (forall j, (j < k)%nat -> nth k l 0 < nth j l 0)).
Proof.
  induction l as [|x l IH]; intros best_i best i; simpl.
  - left. split; [reflexivity | constructor].
  - destruct (Rlt_dec x best) as [Hlt|Hge].
    + right. destruct (IH i x (S i)) as [[Hr Hall]|[k [Hr [Hk [Hb [Hm Hf]]]]]].
      * exists 0%nat. rewrite Hr, Nat.add_0_r.
        split; [reflexivity|]. split; [lia|]. split; [exact Hlt|]. split.
        -- intros [|j] Hj; [lra|].
           rewrite Forall_forall in Hall. apply Hall, nth_In. lia.
        -- intros j Hj. lia.
      * exists (S k). rewrite Hr.
        split; [lia|]. split; [lia|]. split; [lra|]. split.
        -- intros [|j] Hj; [lra|]. apply Hm. lia.
        -- intros [|j] Hj; [lra|]. apply Hf. lia.
    + destruct (IH best_i best (S i)) as [[Hr Hall]|[k [Hr [Hk [Hb [Hm Hf]]]]]].
      * left. split; [exact Hr|]. constructor; [lra | exact Hall].
      * right. exists (S k). rewrite Hr.
        split; [lia|]. split; [lia|]. split; [exact Hb|]. split.
        -- intros [|j] Hj; [lra|]. apply Hm. lia.
        -- intros [|j] Hj; [lra|]. apply Hf. lia.
Qed.

Lemma np_argmin_first_min (l : list R) (i : nat) :
  np_argmin l = Ok i -> first_min l i.
Proof.
  destruct l as [|x l]; simpl; [discriminate|].
  intros H. injection H as <-.
  destruct (argmin_from_spec l 0%nat x 1%nat)
    as [[Hr Hall]|[k [Hr [Hk [Hb [Hm Hf]]]]]]; rewrite Hr.
  - split; [simpl; lia|]. split.
    + intros [|j] Hj; [lra|]. rewrite Forall_forall in Hall.
      simpl. apply Hall, nth_In. simpl in Hj. lia.
    + intros j Hj. lia.
  - split; [simpl; lia|]. split.
    + intros [|j] Hj; [simpl; lra|]. apply Hm. simpl in Hj. lia.
    + intros [|j] Hj; [simpl; lra|]. apply Hf. lia.
Qed.

Lemma np_argmin_total (l : list R) :
  l <> [] -> exists i, np_argmin l = Ok i.
Proof.
  destruct l as [|x l]; [congruence|]. intros _. simpl. eauto.
Qed.

Lemma first_min_unique (l : list R) (i j : nat) :
  first_min l i -> first_min l j -> i = j.
Proof.
  intros [Hi [Hmi Hfi]] [Hj [Hmj Hfj]].
  destruct (Nat.lt_trichotomy i j) as [H|[H|H]]; [|exact H|].
  - specialize (Hfj i H). specialize (Hmi j Hj). lra.
  - specialize (Hfi j H). specialize (Hmj i Hi). lra.
Qed.

Lemma first_min_np_argmin (l : list R) (i : nat) :
  first_min l i -> np_argmin l = Ok i.
Proof.
  intros Hi. destruct (np_argmin_total l) as [k Hk].
  - destruct Hi as [Hlt _]. destruct l; simpl in Hlt; [lia | congruence].
  - rewrite Hk. f_equal.
    apply (first_min_unique l); [apply np_argmin_first_min|]; assumption.
Qed.

Lemma distances_length (time_data : list R) (t : R) :
  length (np_abs (np_sub time_data t)) = length time_data.
Proof. unfold np_abs, np_sub. now rewrite !length_map. Qed.

Lemma distances_nth (time_data : list R) (t : R) (j : nat) :
  (j < length time_data)%nat ->
  nth j (np_abs (np_sub time_data t)) 0 = Rabs (nth j time_data 0 - t).
Proof.
  intros Hj. unfold np_abs, np_sub. rewrite map_map.
  rewrite (nth_indep _ 0 (Rabs (0 - t))) by (rewrite length_map; exact Hj).
  now rewrite (map_nth (fun x => Rabs (x - t))).
Qed.

Lemma first_min_closest (time_data : list R) (t : R) (i : nat) :
  first_min (np_abs (np_sub time_data t)) i <-> closest time_data t i.
Proof.
  unfold first_min, closest. rewrite distances_length. split.
  - intros [Hi [Hm Hf]]. repeat split; [exact Hi | |].
    + intros j Hj. rewrite <- !distances_nth by assumption. now apply Hm.
    + intros j Hj. rewrite <- !distances_nth by lia. now apply Hf.
  - intros [Hi [Hm Hf]]. repeat split; [exact Hi | |].
    + intros j Hj. rewrite !distances_nth by assumption. now apply Hm.
    + intros j Hj. rewrite !distances_nth by lia. now apply Hf.
Qed.

Lemma nearest_closest (time_data : list R) (t : R) (i : nat) :
  nearest time_data t = Ok i <-> closest time_data t i.
Proof.
  unfold nearest. rewrite <- first_min_closest. split.
  - apply np_argmin_first_min.
  - apply first_min_np_argmin.
Qed.

Lemma nearest_total (time_data : list R) (t : R) :
  time_data <> [] -> exists i, nearest time_data t = Ok i.
Proof.
  intros H. apply np_argmin_total.
  destruct time_data; [congruence | discriminate].
Qed.

Lemma nearest_empty (t : R) : nearest [] t = Raise ValueError.
Proof. reflexivity. Qed.

Lemma nearest_error (time_data : list R) (t : R) (e : exn) :
  nearest time_data t = Raise e -> time_data = [] /\ e = ValueError.
Proof.
  destruct time_data as [|x l]; cbn; [|discriminate].
  intros H. injection H as <-. auto.
Qed.

(** *** Nearest index on a sorted time axis *)

Lemma nearest_below (time_data : list R) (t : R) :
  nondecreasing time_data -> time_data <> [] ->
  t <= nth 0 time_data 0 -> nearest time_data t = Ok 0%nat.
Proof.
  intros Hinc Hne Ht. apply nearest_closest.
  assert (Hlen : (0 < length time_data)%nat)
    by (destruct time_data; [congruence | simpl; lia]).
  split; [exact Hlen|]. split.
  - intros j Hj.
    assert (nth 0 time_data 0 <= nth j time_data 0).
    { destruct j; [lra|]. apply Hinc; lia. }
    rewrite !Rabs_right by lra. lra.
  - intros j Hj. lia.
Qed.

Lemma nearest_above (time_data : list R) (t : R) :
  increasing time_data -> time_data <> [] ->
  nth (length time_data - 1) time_data 0 <= t ->
  nearest time_data t = Ok (length time_data - 1)%nat.
Proof.
  intros Hinc Hne Ht. apply nearest_closest.
  assert (Hlen : (0 < length time_data)%nat)
    by (destruct time_data; [congruence | simpl; lia]).
  assert (Hlt : forall j, (j < length time_data - 1)%nat ->
                          nth j time_data 0 < nth (length time_data - 1) time_data 0).
  { intros j Hj. apply Hinc; lia. }
  split; [lia|]. split.
  - intros j Hj.
    assert (nth j time_data 0 <= nth (length time_data - 1) time_data 0).
    { destruct (Nat.eq_dec j (length time_data - 1)) as [->|Hn]; [lra|].
      apply Rlt_le, Hlt. lia. }
    rewrite !Rabs_left1 by lra. lra.
  - intros j Hj. specialize (Hlt j Hj).
    rewrite !Rabs_left1 by lra. lra.
Qed.

Lemma nearest_exact (time_data : list R) (i : nat) :
  increasing time_data -> (i < length time_data)%nat ->
  nearest time_data (nth i time_data 0) = Ok i.
Proof.
  intros Hinc Hi. apply nearest_closest.
  split; [exact Hi|]. split.
  - intros j Hj. rewrite Rminus_diag, Rabs_R0. apply Rabs_pos.
  - intros j Hj. rewrite Rminus_diag, Rabs_R0. apply Rabs_pos_lt.
    specialize (Hinc j i Hj Hi). lra.
Qed.

(** *** Slices *)

Lemma slice_empty {A} (a : list A) (i j : nat) :
  (j <= i)%nat -> slice a i j = [].
Proof.
  intros H. unfold slice. replace (j - i)%nat with 0%nat by lia. reflexivity.
Qed.

Lemma slice_length {A} (a : list A) (i j : nat) :
  length (slice a i j) = Nat.min (j - i) (length a - i).
Proof. unfold slice. now rewrite length_firstn, length_skipn. Qed.

Lemma slice_nth {A} (a : list A) (i j k : nat) (d : A) :
  (k < j - i)%nat -> nth k (slice a i j) d = nth (i + k) a d.
Proof.
  intros H. unfold slice. rewrite nth_firstn.
  destruct (Nat.ltb_spec k (j - i)); [|lia]. apply nth_skipn.
Qed.

Lemma slice_nonempty {A} (a : list A) (i j : nat) :
  (i < j)%nat -> (i < length a)%nat -> slice a i j <> [].
Proof.
  intros Hij Hi Hs. apply (f_equal (@length A)) in Hs.
  rewrite slice_length in Hs. simpl in Hs. lia.
Qed.

Lemma slice_nonempty_inv {A} (a : list A) (i j : nat) :
  slice a i j <> [] -> (i < j)%nat /\ (i < length a)%nat.
Proof.
  intros Hs.
  assert (length (slice a i j) <> 0%nat).
  { intros H. apply Hs. now apply length_zero_iff_nil. }
  rewrite slice_length in H. lia.
Qed.

(** *** Largest and smallest entry *)

Lemma fold_max_spec (l : list R) :
  forall x, is_max (x :: l) (fold_max x l).
Proof.
  unfold fold_max. induction l as [|y l IH]; intros x; simpl.
  - split; [now left|]. intros z [<-|[]]. lra.
  - destruct (IH (Rmax x y)) as [Hin Hub]. split.
    + destruct Hin as [Heq|Hin]; [|right; now right].
      rewrite <- Heq. unfold Rmax. destruct (Rle_dec x y); simpl; auto.
    + intros z [<-|[<-|Hz]].
      * apply Rle_trans with (Rmax x y); [apply Rmax_l|]. apply Hub. now left.
      * apply Rle_trans with (Rmax x y); [apply Rmax_r|]. apply Hub. now left.
      * apply Hub. now right.
Qed.

Lemma fold_min_spec (l : list R) :
  forall x, is_min (x :: l) (fold_min x l).
Proof.
  unfold fold_min. induction l as [|y l IH]; intros x; simpl.
  - split; [now left|]. intros z [<-|[]]. lra.
  - destruct (IH (Rmin x y)) as [Hin Hlb]. split.
    + destruct Hin as [Heq|Hin]; [|right; now right].
      rewrite <- Heq. unfold Rmin. destruct (Rle_dec x y); simpl; auto.
    + intros z [<-|[<-|Hz]].
      * apply Rle_trans with (Rmin x y); [|apply Rmin_l]. apply Hlb. now left.
      * apply Rle_trans with (Rmin x y); [|apply Rmin_r]. apply Hlb. now left.
      * apply Hlb. now right.
Qed.

Lemma seq_max_is_max (l : list R) (m : R) : seq_max l = Ok m -> is_max l m.
Proof.
  destruct l as [|x l]; simpl; [discriminate|].
  intros H. injection H as <-. apply fold_max_spec.
Qed.

Lemma seq_min_is_min (l : list R) (m : R) : seq_min l = Ok m -> is_min l m.
Proof.
  destruct l as [|x l]; simpl; [discriminate|].
  intros H. injection H as <-. apply fold_min_spec.
Qed.

Lemma seq_max_total (l : list R) : l <> [] -> exists m, seq_max l = Ok m.
Proof. destruct l; [congruence|]. simpl. eauto. Qed.

Lemma seq_min_total (l : list R) : l <> [] -> exists m, seq_min l = Ok m.
Proof. destruct l; [congruence|]. simpl. eauto. Qed.

Lemma seq_max_ok_nonempty (l : list R) (m : R) : seq_max l = Ok m -> l <> [].
Proof. destruct l; [discriminate | discriminate]. Qed.

Lemma is_max_unique (l : list R) (m m' : R) :
  is_max l m -> is_max l m' -> m = m'.
Proof.
  intros [Hin Hub] [Hin' Hub']. apply Rle_antisym; auto.
Qed.

Lemma is_min_unique (l : list R) (m m' : R) :
  is_min l m -> is_min l m' -> m = m'.
Proof.
  intros [Hin Hlb] [Hin' Hlb']. apply Rle_antisym; auto.
Qed.

Lemma is_min_le_is_max (l : list R) (lo hi : R) :
  is_min l lo -> is_max l hi -> lo <= hi.
Proof. intros [Hin _] [_ Hub]. auto. Qed.

(** *** Running a computation *)

Lemma bind_lift_ok {A B} (a : A) (f : A -> M B) : bind (lift (Ok a)) f = f a.
Proof. unfold bind, lift. destruct (f a). reflexivity. Qed.

Lemma bind_lift_raise {A B} (e : exn) (f : A -> M B) :
  bind (lift (Raise e)) f = ([], Raise e).
Proof. reflexivity. Qed.

Lemma bind_emit {B} (ev : event) (f : unit -> M B) :
  bind (emit ev) f = (ev :: events (f tt), outcome (f tt)).
Proof. unfold bind, emit, events, outcome. destruct (f tt). reflexivity. Qed.

Lemma bind_events_ok {A B} (m : M A) (a : A) (f : A -> M B) :
  outcome m = Ok a ->
  bind m f = (events m ++ events (f a), outcome (f a)).
Proof.
  destruct m as [l r]. unfold outcome, events. simpl. intros ->.
  destruct (f a). reflexivity.
Qed.

Lemma bind_events_raise {A B} (m : M A) (e : exn) (f : A -> M B) :
  outcome m = Raise e -> bind m f = (events m, Raise e).
Proof.
  destruct m as [l r]. unfold outcome, events. simpl. now intros ->.
Qed.

Lemma dict_get_lorentzian {V} (pl pg : V) :
  dict_get [("lorentzian"%string, pl); ("gaussian"%string, pg)] "lorentzian" = Ok pl.
Proof. reflexivity. Qed.

Lemma dict_get_gaussian {V} (pl pg : V) :
  dict_get [("lorentzian"%string, pl); ("gaussian"%string, pg)] "gaussian" = Ok pg.
Proof. reflexivity. Qed.


Section Runs.

Variable curve_fit : solver.

Lemma fit_ok (shape : string) (f : model) (x y : list R) (p0 p : R * R * R) :
  curve_fit f x y p0 = Ok p ->
  fit curve_fit shape f x y p0 = ([CurveFit shape x y p0], Ok p).
Proof. intros H. unfold fit. rewrite bind_emit, H. reflexivity. Qed.

Lemma fit_raise (shape : string) (f : model) (x y : list R) (p0 : R * R * R) e :
  curve_fit f x y p0 = Raise e ->
  fit curve_fit shape f x y p0 = ([CurveFit shape x y p0], Raise e).
Proof. intros H. unfold fit. rewrite bind_emit, H. reflexivity. Qed.

Lemma draw_off (plot_path : option string) (x y : list R) (pl pg : R * R * R) :
  draw false plot_path x y pl pg = ret tt.
Proof. reflexivity. Qed.

Lemma draw_outcome (plot : bool) (plot_path : option string)
      (x y : list R) (pl pg : R * R * R) :
  x <> [] -> y <> [] -> outcome (draw plot plot_path x y pl pg) = Ok tt.
Proof.
  intros Hx Hy. destruct plot; [|reflexivity].
  destruct (seq_min_total x Hx) as [a Ha], (seq_max_total x Hx) as [b Hb].
  destruct (seq_min_total y Hy) as [c Hc], (seq_max_total y Hy) as [d Hd].
  unfold draw. destruct pl as [[? ?] ?], pg as [[? ?] ?].
  rewrite !bind_emit, Ha, Hb, Hc, Hd, !bind_lift_ok.
  destruct plot_path; reflexivity.
Qed.

(** The shape of a call that gets as far as the ratio. *)
Lemma snr_run time_data signal_data noise_data time_range line_shape
      sub_zero plot plot_path w0 w1 ymax pl pg c w h b e hi lo :
  window time_data time_range = Ok (w0, w1) ->
  seq_max (slice signal_data w0 w1) = Ok ymax ->
  curve_fit lorentzian (slice time_data w0 w1) (slice signal_data w0 w1)
            (np_average time_range, 1, ymax) = Ok pl ->
  curve_fit gaussian (slice time_data w0 w1) (slice signal_data w0 w1)
            (np_average time_range, 1, ymax) = Ok pg ->
  dict_get [("lorentzian"%string, pl); ("gaussian"%string, pg)] line_shape
    = Ok (c, w, h) ->
  nearest time_data (c - Rabs w * 10) = Ok b ->
  nearest time_data (c + Rabs w * 10) = Ok e ->
  seq_max (slice noise_data b e) = Ok hi ->
  seq_min (slice noise_data b e) = Ok lo ->
  snr curve_fit time_data signal_data noise_data time_range line_shape
      sub_zero plot plot_path
  = (CurveFit "lorentzian" (slice time_data w0 w1) (slice signal_data w0 w1)
              (np_average time_range, 1, ymax)
     :: CurveFit "gaussian" (slice time_data w0 w1) (slice signal_data w0 w1)
                 (np_average time_range, 1, ymax)
     :: events (draw plot plot_path (slice time_data w0 w1)
                     (slice signal_data w0 w1) pl pg),
     Ok (fdiv (Fin (bool_plus_one sub_zero * h)) (Fin (hi - lo)))).
Proof.
  intros Hwin Hymax Hl Hg Hsel Hb He Hhi Hlo.
  assert (Hy : slice signal_data w0 w1 <> [])
    by (eapply seq_max_ok_nonempty; eassumption).
  assert (Hx : slice time_data w0 w1 <> []).
  { apply slice_nonempty_inv in Hy. apply slice_nonempty; [tauto|].
    unfold window in Hwin.
    destruct (nearest time_data (fst time_range)) as [i|] eqn:Hi; [|discriminate].
    destruct (nearest time_data (snd time_range)); [|discriminate].
    injection Hwin as <- _. now apply nearest_closest in Hi as [? _]. }
  unfold snr. rewrite Hwin, bind_lift_ok, Hymax, bind_lift_ok.
  rewrite (fit_ok _ _ _ _ _ _ Hl), (fit_ok _ _ _ _ _ _ Hg).
  cbn [bind]. rewrite Hsel, bind_lift_ok.
  rewrite Hb, bind_lift_ok, He, bind_lift_ok, Hhi, bind_lift_ok, Hlo, bind_lift_ok.
  rewrite (bind_events_ok _ tt) by (now apply draw_outcome).
  cbn. now rewrite app_nil_r.
Qed.

End Runs.

(** *** The window and the part of a call after the fits *)

Lemma window_closest (time_data : list R) (t0 t1 : R) (w0 w1 : nat) :
  window time_data (t0, t1) = Ok (w0, w1) <->
  closest time_data t0 w0 /\ closest time_data t1 w1.
Proof.
  unfold window. cbn [fst snd]. split.
  - destruct (nearest time_data t0) as [i|] eqn:Hi; [|discriminate].
    destruct (nearest time_data t1) as [j|] eqn:Hj; [|discriminate].
    intros H. injection H as <- <-. split; now apply nearest_closest.
  - intros [H0 H1]. apply nearest_closest in H0, H1. now rewrite H0, H1.
Qed.

Lemma window_nonempty (time_data : list R) (time_range : R * R) (w : nat * nat) :
  window time_data time_range = Ok w -> time_data <> [].
Proof.
  intros H ->. unfold window in H. now rewrite nearest_empty in H.
Qed.

Lemma window_error (time_data : list R) (time_range : R * R) (e : exn) :
  window time_data time_range = Raise e -> time_data = [] /\ e = ValueError.
Proof.
  unfold window.
  destruct (nearest time_data (fst time_range)) eqn:H0.
  - destruct (nearest time_data (snd time_range)) eqn:H1; [discriminate|].
    intros H. injection H as <-. now apply nearest_error in H1.
  - intros H. injection H as <-. now apply nearest_error in H0.
Qed.

Lemma chosen_dict_get (line_shape : string) (pl pg p : R * R * R) :
  chosen line_shape pl pg p ->
  dict_get [("lorentzian"%string, pl); ("gaussian"%string, pg)] line_shape = Ok p.
Proof. intros [[-> ->]|[-> ->]]; reflexivity. Qed.

Lemma fits_nonempty curve_fit time_data signal_data time_range pl pg :
  fits curve_fit time_data signal_data time_range pl pg -> time_data <> [].
Proof.
  intros (w0 & w1 & ymax & Hwin & _). eapply window_nonempty; eassumption.
Qed.

(** Once both fits are in and a shape is selected, the value returned is
    the ratio taken on the slice of [noise_data] between the indices
    nearest to the two ends of the noise window. *)
Lemma snr_after_fit curve_fit time_data signal_data noise_data time_range
      line_shape sub_zero plot plot_path pl pg c w h b e :
  fits curve_fit time_data signal_data time_range pl pg ->
  chosen line_shape pl pg (c, w, h) ->
  nearest time_data (c - Rabs w * 10) = Ok b ->
  nearest time_data (c + Rabs w * 10) = Ok e ->
  outcome (snr curve_fit time_data signal_data noise_data time_range
               line_shape sub_zero plot plot_path)
  = peak_to_peak_ratio (bool_plus_one sub_zero) h (slice noise_data b e).
Proof.
  intros (w0 & w1 & ymax & Hwin & Hymax & Hl & Hg) Hsel Hb He.
  apply chosen_dict_get in Hsel. unfold peak_to_peak_ratio.
  destruct (seq_max (slice noise_data b e)) as [hi|err] eqn:Hhi.
  - destruct (seq_min (slice noise_data b e)) as [lo|err] eqn:Hlo.
    + now rewrite (snr_run curve_fit _ _ _ _ _ _ _ _ _ _ _ _ _ _ _ _ _ _ _ _
                           Hwin Hymax Hl Hg Hsel Hb He Hhi Hlo).
    + destruct (slice noise_data b e); discriminate.
  - unfold snr. rewrite Hwin, bind_lift_ok, Hymax, bind_lift_ok.
    rewrite (fit_ok _ _ _ _ _ _ _ Hl), (fit_ok _ _ _ _ _ _ _ Hg).
    cbn [bind]. rewrite Hsel, bind_lift_ok.
    rewrite Hb, bind_lift_ok, He, bind_lift_ok, Hhi. reflexivity.
Qed.

Lemma peak_to_peak_ratio_spec (scale h : R) (nw : list R) (hi lo : R) :
  is_max nw hi -> is_min nw lo ->
  peak_to_peak_ratio scale h nw = Ok (fdiv (Fin (scale * h)) (Fin (hi - lo))).
Proof.
  intros Hhi Hlo. unfold peak_to_peak_ratio.
  assert (Hne : nw <> []) by (destruct Hhi as [Hin _]; now destruct nw).
  destruct (seq_max_total nw Hne) as [hi' Hhi'].
  destruct (seq_min_total nw Hne) as [lo' Hlo'].
  rewrite Hhi', Hlo'.
  rewrite (is_max_unique nw hi hi'), (is_min_unique nw lo lo');
    auto using seq_max_is_max, seq_min_is_min.
Qed.

Lemma bool_plus_one_eq (b : bool) : bool_plus_one b = if b then 2 else 1.
Proof. unfold bool_plus_one. destruct b; lra. Qed.

Lemma signed_inf_not_finite (a : R) : is_finite (signed_inf a) = false.
Proof.
  unfold signed_inf. destruct (Req_dec_T a 0); [reflexivity|].
  now destruct (Rlt_dec 0 a).
Qed.

Lemma snr_outcome_spec curve_fit time_data signal_data noise_data time_range
      line_shape sub_zero plot plot_path pl pg c w h b e hi lo :
  fits curve_fit time_data signal_data time_range pl pg ->
  chosen line_shape pl pg (c, w, h) ->
  closest time_data (c - 10 * Rabs w) b ->
  closest time_data (c + 10 * Rabs w) e ->
  is_max (slice noise_data b e) hi ->
  is_min (slice noise_data b e) lo ->
  outcome (snr curve_fit time_data signal_data noise_data time_range
               line_shape sub_zero plot plot_path)
  = Ok (fdiv (Fin ((if sub_zero then 2 else 1) * h)) (Fin (hi - lo))).
Proof.
  intros Hfit Hsel Hb He Hhi Hlo.
  rewrite (Rmult_comm 10) in Hb, He. apply nearest_closest in Hb, He.
  rewrite (snr_after_fit _ _ _ _ _ _ _ _ _ _ _ _ _ _ _ _ Hfit Hsel Hb He).
  rewrite bool_plus_one_eq. now apply peak_to_peak_ratio_spec.
Qed.

(** *** The three-point traces of the examples *)

Lemma time3_increasing : increasing time3.
Proof.
  intros i j Hij Hj. unfold time3 in *. simpl in Hj.
  destruct j as [|[|[|j]]]; try lia;
    destruct i as [|[|i]]; try lia; simpl; lra.
Qed.

Lemma time3_nondecreasing : nondecreasing time3.
Proof. intros i j Hij Hj. apply Rlt_le. now apply time3_increasing. Qed.

Lemma time3_low (t : R) : t <= 0 -> closest time3 t 0.
Proof.
  intros Ht. apply nearest_closest, nearest_below;
    [apply time3_nondecreasing | discriminate | exact Ht].
Qed.

Lemma time3_high (t : R) : 2 <= t -> closest time3 t 2.
Proof.
  intros Ht. apply nearest_closest.
  apply (nearest_above time3); [apply time3_increasing | discriminate | exact Ht].
Qed.

Lemma time3_window : window time3 (0, 2) = Ok (0%nat, 2%nat).
Proof. apply window_closest. split; [apply time3_low | apply time3_high]; lra. Qed.

(** Midway between two points the earlier index wins; elsewhere the
    nearer one. *)
Example nearest_tie : nearest time3 (1 / 2) = Ok 0%nat.
Proof.
  apply nearest_closest. unfold closest, time3. split; [simpl; lia|].
  split; intros j Hj; [|lia].
  destruct j as [|[|[|j]]]; simpl in *; try lia;
    unfold Rabs; repeat destruct Rcase_abs; lra.
Qed.

Example nearest_inside : nearest time3 (6 / 10) = Ok 1%nat.
Proof.
  apply nearest_closest. unfold closest, time3. split; [simpl; lia|].
  split; intros j Hj;
    destruct j as [|[|[|j]]]; simpl in *; try lia;
    unfold Rabs; repeat destruct Rcase_abs; lra.
Qed.

Example slice_end_exclusive : slice time3 0 2 = [0; 1].
Proof. reflexivity. Qed.

Example slice_clipped : slice time3 1 7 = [1; 2].
Proof. reflexivity. Qed.

Example slice_reversed : slice time3 2 1 = [].
Proof. reflexivity. Qed.

Example max_of_nothing : seq_max [] = Raise ValueError.
Proof. reflexivity. Qed.

Lemma time3_fits (signal_data : list R) (x y : R) (l : list R) (p : R * R * R) :
  signal_data = x :: y :: l ->
  fits (fit_to p) time3 signal_data (0, 2) p p.
Proof.
  intros ->. exists 0%nat, 2%nat, (fold_max x [y]).
  split; [apply time3_window|]. repeat split.
Qed.

Lemma pair_is_max (x y : R) : x <= y -> is_max [x; y] y.
Proof.
  intros H. split; [simpl; auto|]. intros z [<-|[<-|[]]]; lra.
Qed.

Lemma pair_is_min (x y : R) : x <= y -> is_min [x; y] x.
Proof.
  intros H. split; [simpl; auto|]. intros z [<-|[<-|[]]]; lra.
Qed.

(** ** The sign of the ratio *)

(** C5, as the code has it. A call that returns a finite value returns a
    real number with the sign of the fitted height of the selected shape:
    not negative when that height is not negative, not positive when it is
    not positive. *)
Theorem snr_sign_follows_height curve_fit time_data signal_data noise_data
        time_range line_shape sub_zero plot plot_path pl pg c w h r :
  fits curve_fit time_data signal_data time_range pl pg ->
  chosen line_shape pl pg (c, w, h) ->
  outcome (snr curve_fit time_data signal_data noise_data time_range
               line_shape sub_zero plot plot_path) = Ok (Fin r) ->
  (0 <= h -> 0 <= r) /\ (h <= 0 -> r <= 0).
Proof.
  intros Hfit Hsel Hout.
  pose proof (fits_nonempty _ _ _ _ _ _ Hfit) as Hne.
  destruct (nearest_total time_data (c - Rabs w * 10) Hne) as [b Hb].
  destruct (nearest_total time_data (c + Rabs w * 10) Hne) as [e He].
  rewrite (snr_after_fit _ _ _ _ _ _ _ _ _ _ _ _ _ _ _ _ Hfit Hsel Hb He) in Hout.
  unfold peak_to_peak_ratio in Hout.
  destruct (seq_max (slice noise_data b e)) as [hi|] eqn:Hhi; [|discriminate].
  destruct (seq_min (slice noise_data b e)) as [lo|] eqn:Hlo; [|discriminate].
  apply seq_max_is_max in Hhi. apply seq_min_is_min in Hlo.
  pose proof (is_min_le_is_max _ _ _ Hlo Hhi) as Hle.
  injection Hout as Hout. unfold fdiv in Hout.
  destruct (Req_dec_T (hi - lo) 0) as [Hz|Hnz].
  - pose proof (signed_inf_not_finite (bool_plus_one sub_zero * h)) as Hinf.
    rewrite Hout in Hinf. discriminate.
  - injection Hout as <-. rewrite bool_plus_one_eq.
    assert (Hinv : 0 < / (hi - lo)) by (apply Rinv_0_lt_compat; lra).
    unfold Rdiv. destruct sub_zero; split; intros Hh; nra.
Qed.

Lemma fdiv_finite (a b : R) : b <> 0 -> fdiv (Fin a) (Fin b) = Fin (a / b).
Proof. intros Hb. unfold fdiv. now destruct (Req_dec_T b 0). Qed.

Lemma fdiv_zero (a : R) : fdiv (Fin a) (Fin 0) = signed_inf a.
Proof. unfold fdiv. now destruct (Req_dec_T 0 0). Qed.

Lemma signed_inf_zero : signed_inf 0 = NaN.
Proof. unfold signed_inf. now destruct (Req_dec_T 0 0). Qed.

Lemma signed_inf_pos (a : R) : 0 < a -> signed_inf a = PInf.
Proof. intros Ha. unfold signed_inf. case_reals; reflexivity. Qed.

Lemma signed_inf_neg (a : R) : a < 0 -> signed_inf a = NInf.
Proof. intros Ha. unfold signed_inf. case_reals; reflexivity. Qed.

Lemma snr_sign_follows_height_witness :
  (0 <= 1 -> 0 <= 2 * 1 / (1 / 2 - 0)) /\ (1 <= 0 -> 2 * 1 / (1 / 2 - 0) <= 0).
Proof.
  apply (snr_sign_follows_height (fit_to (1, 1, 1)) time3 peak3 blank3 (0, 2)
           "gaussian" true false None (1, 1, 1) (1, 1, 1) 1 1 1).
  - eapply time3_fits. reflexivity.
  - left. split; reflexivity.
  - rewrite <- fdiv_finite by lra.
    apply (snr_outcome_spec _ _ _ _ _ _ true _ _ (1, 1, 1) (1, 1, 1) 1 1 1
             0%nat 2%nat).
    + eapply time3_fits. reflexivity.
    + left. split; reflexivity.
    + apply time3_low. rewrite Rabs_R1. lra.
    + apply time3_high. rewrite Rabs_R1. lra.
    + apply pair_is_max. lra.
    + apply pair_is_min. lra.
Defined.

(** *** The five-point traces of the examples *)

Lemma time5_increasing : increasing time5.
Proof.
  intros i j Hij Hj. unfold time5 in *. simpl in Hj.
  destruct j as [|[|[|[|[|j]]]]]; try lia;
    destruct i as [|[|[|[|i]]]]; try lia; simpl; lra.
Qed.

Lemma time5_low (t : R) : t <= 0 -> nearest time5 t = Ok 0%nat.
Proof.
  intros Ht. apply nearest_below; [|discriminate|exact Ht].
  intros i j Hij Hj. apply Rlt_le. now apply time5_increasing.
Qed.

Lemma time5_high (t : R) : 4 <= t -> nearest time5 t = Ok 4%nat.
Proof.
  intros Ht.
  apply (nearest_above time5); [apply time5_increasing | discriminate | exact Ht].
Qed.

Lemma dip5_max : seq_max (slice dip5 0 4) = Ok (- (1 / 5)).
Proof.
  cbn. f_equal. unfold Rmax. repeat (destruct Rle_dec; try lra).
Qed.

Lemma blank5_max : seq_max (slice blank5 0 4) = Ok (1 / 2).
Proof.
  cbn. f_equal. unfold Rmax. repeat (destruct Rle_dec; try lra).
Qed.

Lemma blank5_min : seq_min (slice blank5 0 4) = Ok 0.
Proof.
  cbn. f_equal. unfold Rmin. repeat (destruct Rle_dec; try lra).
Qed.

Lemma dip5_fits (curve_fit : solver) (pl pg : R * R * R) :
  curve_fit lorentzian [0; 1; 2; 3] [- (1 / 5); - (1 / 2); - 1; - (1 / 2)]
            (2, 1, - (1 / 5)) = Ok pl ->
  curve_fit gaussian [0; 1; 2; 3] [- (1 / 5); - (1 / 2); - 1; - (1 / 2)]
            (2, 1, - (1 / 5)) = Ok pg ->
  fits curve_fit time5 dip5 (0, 4) pl pg.
Proof.
  intros Hl Hg. exists 0%nat, 4%nat, (- (1 / 5)).
  assert (Havg : np_average (0, 4) = 2) by (unfold np_average; simpl; lra).
  split.
  - apply window_closest.
    split; apply nearest_closest; [apply time5_low | apply time5_high]; lra.
  - split; [apply dip5_max|]. rewrite Havg. split; assumption.
Qed.

Lemma dip5_outcome (curve_fit : solver) (c w h : R) (pg : R * R * R)
      (sub_zero : bool) (plot_path : option string) :
  curve_fit lorentzian [0; 1; 2; 3] [- (1 / 5); - (1 / 2); - 1; - (1 / 2)]
            (2, 1, - (1 / 5)) = Ok (c, w, h) ->
  curve_fit gaussian [0; 1; 2; 3] [- (1 / 5); - (1 / 2); - 1; - (1 / 2)]
            (2, 1, - (1 / 5)) = Ok pg ->
  1 <= c <= 3 -> 1 <= Rabs w ->
  outcome (snr curve_fit time5 dip5 blank5 (0, 4) "lorentzian" sub_zero false
               plot_path)
  = Ok (Fin ((if sub_zero then 2 else 1) * h / (1 / 2))).
Proof.
  intros Hl Hg Hc Hw.
  rewrite (snr_after_fit curve_fit time5 dip5 blank5 (0, 4) "lorentzian"
             sub_zero false plot_path (c, w, h) pg c w h 0%nat 4%nat).
  - unfold peak_to_peak_ratio. rewrite blank5_max, blank5_min.
    rewrite bool_plus_one_eq, fdiv_finite by lra.
    do 2 f_equal. lra.
  - now apply dip5_fits.
  - right. split; reflexivity.
  - apply time5_low. lra.
  - apply time5_high. lra.
Qed.

(** C5 fails on a peak that points down. The trace [dip5] is a Lorentzian of
    height -1, which the parameters (2, 2, -1) reproduce exactly on the four
    points of the window; a solver that returns them gives -2; and whatever
    negative height a solver returns there, with a centre between 1 and 3
    and a width of size at least 1, the value returned is negative. *)
Lemma snr_negative_counterexample :
  lorentzian [0; 1; 2; 3] 2 2 (- 1)
  = map Fin [- (1 / 5); - (1 / 2); - 1; - (1 / 2)] /\
  outcome (snr (fit_to (2, 2, - 1)) time5 dip5 blank5 (0, 4) "lorentzian"
               false false None) = Ok (Fin (1 * (- 1) / (1 / 2))) /\
  ~ nonnegative_real (Fin (1 * (- 1) / (1 / 2))) /\
  forall curve_fit c w h pg sub_zero plot_path,
    curve_fit lorentzian [0; 1; 2; 3] [- (1 / 5); - (1 / 2); - 1; - (1 / 2)]
              (2, 1, - (1 / 5)) = Ok (c, w, h) ->
    curve_fit gaussian [0; 1; 2; 3] [- (1 / 5); - (1 / 2); - 1; - (1 / 2)]
              (2, 1, - (1 / 5)) = Ok pg ->
    h < 0 -> 1 <= c <= 3 -> 1 <= Rabs w ->
    exists v,
      outcome (snr curve_fit time5 dip5 blank5 (0, 4) "lorentzian" sub_zero
                   false plot_path) = Ok v /\
      ~ nonnegative_real v.
Proof.
  split; [|split; [|split]].
  - unfold lorentzian, np_square. cbn [map].
    rewrite !fdiv_finite by lra. cbn [fmul fadd].
    rewrite !fdiv_finite by lra. repeat f_equal; field.
  - apply (dip5_outcome (fit_to (2, 2, - 1)) 2 2 (- 1) (2, 2, - 1) false None);
      try reflexivity; [lra|].
    rewrite Rabs_right; lra.
  - intros [r [Hr Hpos]]. injection Hr as <-. lra.
  - intros curve_fit c w h pg sub_zero plot_path Hl Hg Hh Hc Hw.
    eexists. split; [exact (dip5_outcome _ _ _ _ _ _ _ Hl Hg Hc Hw)|].
    intros [r [Hr Hpos]]. injection Hr as <-.
    destruct sub_zero; lra.
Qed.

(** ** The window *)

Lemma closest_lt_length (time_data : list R) (t : R) (i : nat) :
  closest time_data t i -> (i < length time_data)%nat.
Proof. now intros [H _]. Qed.

(** ** Unknown shape names *)


Lemma outcome_fit curve_fit shape f x y p0 :
  outcome (fit curve_fit shape f x y p0) = curve_fit f x y p0.
Proof. unfold fit. now rewrite bind_emit. Qed.



(** ** The line shapes *)

Lemma square_fdiv_opp (a w : R) :
  np_square (fdiv (Fin a) (Fin (- w))) = np_square (fdiv (Fin a) (Fin w)).
Proof.
  unfold fdiv.
  destruct (Req_dec_T w 0) as [Hw|Hw], (Req_dec_T (- w) 0) as [Hw'|Hw'];
    try lra; [reflexivity|].
  unfold np_square, fmul. f_equal. field. assumption.
Qed.

(** C7. For a width that is not zero, each shape evaluated at its own
    centre gives exactly the height. *)
Theorem model_exact_at_center (center width height : R) :
  width <> 0 ->
  lorentzian [center] center width height = [Fin height] /\
  gaussian [center] center width height = [Fin height].
Proof.
  intros Hw.
  assert (Hx : fdiv (Fin (2 * (center - center))) (Fin width) = Fin 0).
  { rewrite fdiv_finite by assumption. f_equal. field. assumption. }
  unfold lorentzian, gaussian. cbn [map]. rewrite Hx.
  unfold np_square. cbn [fmul fadd np_exp]. split.
  - rewrite fdiv_finite by lra. repeat f_equal. field.
  - repeat f_equal. rewrite Rmult_0_r, Rmult_0_r, exp_0. lra.
Qed.

Lemma model_exact_at_center_witness :
  lorentzian [5] 5 (1 / 2) 100 = [Fin 100] /\
  gaussian [5] 5 (1 / 2) 100 = [Fin 100].
Proof. apply (model_exact_at_center 5 (1 / 2) 100). lra. Defined.

(** C9. Each shape gives the same values for a width and for its
    opposite. *)
Theorem model_width_sign_invariant (x_data : list R) (center width height : R) :
  lorentzian x_data center width height
  = lorentzian x_data center (- width) height /\
  gaussian x_data center width height
  = gaussian x_data center (- width) height.
Proof.
  unfold lorentzian, gaussian.
  split; apply map_ext; intros xi; cbv zeta; now rewrite square_fdiv_opp.
Qed.

(** ** The constant 0.693 *)







(** ** Further properties of the line shapes *)

Lemma lorentzian_value (x center width height : R) :
  width <> 0 ->
  lorentzian [x] center width height
  = [Fin (height / (1 + (2 * (center - x) / width) * (2 * (center - x) / width)))].
Proof.
  intros Hw. unfold lorentzian, np_square. cbn [map].
  rewrite fdiv_finite by assumption. cbn [fmul fadd].
  rewrite fdiv_finite; [reflexivity|].
  pose proof (Rle_0_sqr (2 * (center - x) / width)) as H. unfold Rsqr in H. lra.
Qed.

Lemma gaussian_value (x center width height : R) :
  width <> 0 ->
  gaussian [x] center width height
  = [Fin (height * exp (- 0.693 * ((2 * (center - x) / width)
                                   * (2 * (center - x) / width))))].
Proof.
  intros Hw. unfold gaussian, np_square. cbn [map].
  rewrite fdiv_finite by assumption. reflexivity.
Qed.

Lemma signed_inf_square_opp (a : R) :
  np_square (signed_inf (- a)) = np_square (signed_inf a).
Proof.
  unfold signed_inf.
  destruct (Req_dec_T a 0), (Req_dec_T (- a) 0); try lra; [reflexivity|].
  destruct (Rlt_dec 0 a), (Rlt_dec 0 (- a)); try lra; reflexivity.
Qed.

Lemma square_fdiv_opp_num (a w : R) :
  np_square (fdiv (Fin (- a)) (Fin w)) = np_square (fdiv (Fin a) (Fin w)).
Proof.
  unfold fdiv. destruct (Req_dec_T w 0) as [Hw|Hw].
  - apply signed_inf_square_opp.
  - unfold np_square, fmul. f_equal. field. assumption.
Qed.

Lemma exp_le_1 (y : R) : y <= 0 -> exp y <= 1.
Proof.
  intros [Hy | ->]; [|rewrite exp_0; lra].
  rewrite <- exp_0. apply Rlt_le. now apply exp_increasing.
Qed.

Lemma exp_monotone (x y : R) : x <= y -> exp x <= exp y.
Proof.
  intros [H | ->]; [|lra]. apply Rlt_le. now apply exp_increasing.
Qed.

(** X1. Both shapes are mirror-symmetric about the centre: the values at
    [center + d] and at [center - d] are the same, for every width. *)
Theorem model_symmetric_about_center (offsets : list R) (center width height : R) :
  lorentzian (map (fun d => center + d) offsets) center width height
  = lorentzian (map (fun d => center - d) offsets) center width height /\
  gaussian (map (fun d => center + d) offsets) center width height
  = gaussian (map (fun d => center - d) offsets) center width height.
Proof.
  unfold lorentzian, gaussian. rewrite !map_map.
  split; apply map_ext; intros d; cbv zeta;
    replace (2 * (center - (center + d))) with (- (2 * (center - (center - d))))
      by lra;
    now rewrite square_fdiv_opp_num.
Qed.

(** X2. For a width that is not zero, both shapes give a finite value whose
    size never exceeds the size of the height and whose sign is never
    opposite to that of the height. *)
Theorem model_within_height (x center width height : R) :
  width <> 0 ->
  exists rl rg,
    lorentzian [x] center width height = [Fin rl] /\
    gaussian [x] center width height = [Fin rg] /\
    Rabs rl <= Rabs height /\ Rabs rg <= Rabs height /\
    (0 <= height -> 0 <= rl /\ 0 <= rg) /\
    (height <= 0 -> rl <= 0 /\ rg <= 0).
Proof.
  intros Hw.
  set (q := (2 * (center - x) / width) * (2 * (center - x) / width)).
  assert (Hq : 0 <= q) by (unfold q; apply Rle_0_sqr).
  exists (height / (1 + q)), (height * exp (- 0.693 * q)).
  split; [now apply lorentzian_value|]. split; [now apply gaussian_value|].
  assert (Hinv : 0 < / (1 + q) <= 1).
  { split; [apply Rinv_0_lt_compat; lra|].
    rewrite <- Rinv_1 at 2. apply Rinv_le_contravar; lra. }
  assert (Hexp : 0 < exp (- 0.693 * q) <= 1).
  { split; [apply exp_pos | apply exp_le_1; nra]. }
  unfold Rdiv. rewrite !Rabs_mult.
  rewrite (Rabs_right (/ (1 + q))), (Rabs_right (exp (- 0.693 * q))) by lra.
  pose proof (Rabs_pos height).
  repeat split; try nra.
Qed.

Lemma model_within_height_witness :
  exists rl rg,
    lorentzian [3] 5 (1 / 2) 100 = [Fin rl] /\
    gaussian [3] 5 (1 / 2) 100 = [Fin rg] /\
    Rabs rl <= Rabs 100 /\ Rabs rg <= Rabs 100 /\
    (0 <= 100 -> 0 <= rl /\ 0 <= rg) /\
    (100 <= 0 -> rl <= 0 /\ rg <= 0).
Proof. apply (model_within_height 3 5 (1 / 2) 100). lra. Defined.

(** X3. For a width that is not zero and a height that is not negative, both
    shapes fall off with the distance from the centre: a point at least as
    far from the centre gets a value at most as large. *)
Theorem model_decays_from_center (x1 x2 center width height : R) :
  width <> 0 ->
  0 <= height ->
  Rabs (x1 - center) <= Rabs (x2 - center) ->
  exists l1 l2 g1 g2,
    lorentzian [x1] center width height = [Fin l1] /\
    lorentzian [x2] center width height = [Fin l2] /\
    gaussian [x1] center width height = [Fin g1] /\
    gaussian [x2] center width height = [Fin g2] /\
    l2 <= l1 /\ g2 <= g1.
Proof.
  intros Hw Hh Hd.
  set (q1 := (2 * (center - x1) / width) * (2 * (center - x1) / width)).
  set (q2 := (2 * (center - x2) / width) * (2 * (center - x2) / width)).
  assert (Hq1 : 0 <= q1) by (unfold q1; apply Rle_0_sqr).
  assert (Hq : q1 <= q2).
  { apply Rsqr_le_abs_1 in Hd. unfold Rsqr in Hd.
    assert (Hs : 0 < / width * / width).
    { pose proof (Rinv_neq_0_compat width Hw). nra. }
    unfold q1, q2, Rdiv.
    replace (2 * (center - x1) * / width * (2 * (center - x1) * / width))
      with (4 * ((x1 - center) * (x1 - center)) * (/ width * / width)) by ring.
    replace (2 * (center - x2) * / width * (2 * (center - x2) * / width))
      with (4 * ((x2 - center) * (x2 - center)) * (/ width * / width)) by ring.
    nra. }
  exists (height / (1 + q1)), (height / (1 + q2)),
    (height * exp (- 0.693 * q1)), (height * exp (- 0.693 * q2)).
  split; [now apply lorentzian_value|]. split; [now apply lorentzian_value|].
  split; [now apply gaussian_value|]. split; [now apply gaussian_value|].
  split.
  - unfold Rdiv. apply Rmult_le_compat_l; [exact Hh|].
    apply Rinv_le_contravar; lra.
  - apply Rmult_le_compat_l; [exact Hh|]. apply exp_monotone. nra.
Qed.

Lemma model_decays_from_center_witness :
  exists l1 l2 g1 g2,
    lorentzian [4] 5 (1 / 2) 100 = [Fin l1] /\
    lorentzian [7] 5 (1 / 2) 100 = [Fin l2] /\
    gaussian [4] 5 (1 / 2) 100 = [Fin g1] /\
    gaussian [7] 5 (1 / 2) 100 = [Fin g2] /\
    l2 <= l1 /\ g2 <= g1.
Proof.
  apply (model_decays_from_center 4 7 5 (1 / 2) 100); try lra.
  rewrite (Rabs_left (4 - 5)), (Rabs_right (7 - 5)) by lra. lra.
Defined.

(** X4. A width of zero raises nothing: away from the centre both shapes give
    zero, whatever the height, and at the centre they give NaN. *)
Theorem model_at_zero_width (x center height : R) :
  x <> center ->
  lorentzian [x] center 0 height = [Fin 0] /\
  gaussian [x] center 0 height = [Fin 0] /\
  lorentzian [center] center 0 height = [NaN] /\
  gaussian [center] center 0 height = [NaN].
Proof.
  intros Hx.
  assert (Hinf : np_square (fdiv (Fin (2 * (center - x))) (Fin 0)) = PInf).
  { rewrite fdiv_zero. unfold signed_inf.
    destruct (Req_dec_T (2 * (center - x)) 0); [lra|].
    now destruct (Rlt_dec 0 (2 * (center - x))). }
  assert (Hnan : fdiv (Fin (2 * (center - center))) (Fin 0) = NaN).
  { rewrite fdiv_zero, Rminus_diag, Rmult_0_r. apply signed_inf_zero. }
  unfold lorentzian, gaussian. cbn [map]. rewrite Hinf, Hnan.
  cbn [np_square fmul fadd fdiv np_exp].
  repeat split. rewrite signed_inf_neg by lra. cbn [np_exp fmul].
  repeat f_equal. ring.
Qed.

Lemma model_at_zero_width_witness :
  lorentzian [3] 5 0 100 = [Fin 0] /\
  gaussian [3] 5 0 100 = [Fin 0] /\
  lorentzian [5] 5 0 100 = [NaN] /\
  gaussian [5] 5 0 100 = [NaN].
Proof. apply (model_at_zero_width 3 5 100). lra. Defined.

(** ** Further properties of the index search *)

Lemma increasing_le (l : list R) (i j : nat) :
  increasing l -> (i <= j)%nat -> (j < length l)%nat -> nth i l 0 <= nth j l 0.
Proof.
  intros Hinc Hij Hj. destruct (Nat.eq_dec i j) as [->|Hne]; [lra|].
  apply Rlt_le, Hinc; lia.
Qed.

(** X5. On a strictly increasing time array, bounds that are exactly two of
    the time points give exactly the indices of those points. *)
Theorem window_exact_match (time_data : list R) (i j : nat) :
  increasing time_data ->
  (i < length time_data)%nat ->
  (j < length time_data)%nat ->
  window time_data (nth i time_data 0, nth j time_data 0) = Ok (i, j).
Proof.
  intros Hinc Hi Hj. apply window_closest.
  split; apply nearest_closest; now apply nearest_exact.
Qed.

Lemma window_exact_match_witness :
  window time3 (nth 1 time3 0, nth 2 time3 0) = Ok (1%nat, 2%nat).
Proof.
  apply (window_exact_match time3 1 2 time3_increasing); simpl; lia.
Defined.

(** X9. On a strictly increasing time array, every time point handed to the
    fit lies strictly before the point nearest to the end of the range, and
    not before the point nearest to its start; so the last sample of the
    trace is never part of the fitting data. *)
Theorem window_excludes_end (time_data : list R) (time_range : R * R)
        (w0 w1 : nat) (x : R) :
  increasing time_data ->
  window time_data time_range = Ok (w0, w1) ->
  In x (slice time_data w0 w1) ->
  nth w0 time_data 0 <= x < nth w1 time_data 0 /\
  x <> nth (length time_data - 1) time_data 0.
Proof.
  intros Hinc Hwin Hin. destruct time_range as [t0 t1].
  apply window_closest in Hwin as [C0 C1].
  apply closest_lt_length in C0, C1.
  apply (In_nth _ _ 0) in Hin as [k [Hk <-]].
  rewrite slice_length in Hk.
  rewrite slice_nth by lia.
  pose proof (increasing_le _ w0 (w0 + k) Hinc ltac:(lia) ltac:(lia)).
  pose proof (Hinc (w0 + k)%nat w1 ltac:(lia) C1).
  pose proof (increasing_le _ w1 (length time_data - 1) Hinc ltac:(lia) ltac:(lia)).
  split; lra.
Qed.

Lemma window_excludes_end_witness :
  nth 0 time3 0 <= 1 < nth 2 time3 0 /\ 1 <> nth (length time3 - 1) time3 0.
Proof.
  apply (window_excludes_end time3 (0, 2) 0 2 1 time3_increasing).
  - apply time3_window.
  - simpl. auto.
Defined.

(** ** Further properties of a call: failures *)

Lemma time3_middle (t : R) : 1 / 2 < t <= 3 / 2 -> closest time3 t 1.
Proof.
  intros Ht. unfold closest, time3. split; [simpl; lia|].
  split; intros j Hj;
    destruct j as [|[|[|j]]]; simpl in *; try lia;
    unfold Rabs; repeat destruct Rcase_abs; lra.
Qed.

Lemma slice_out_of_range {A} (a : list A) (i j : nat) :
  (j <= i)%nat \/ (length a <= i)%nat -> slice a i j = [].
Proof.
  intros H. apply length_zero_iff_nil. rewrite slice_length. lia.
Qed.

(** X10. An exception raised by the solver reaches the caller unchanged. When
    the Lorentzian fit fails the Gaussian fit is not attempted; when the
    Gaussian fit fails the call stops after the two solver calls. Nothing
    is drawn in either case. *)
Theorem solver_failure_propagates curve_fit time_data signal_data noise_data
        time_range line_shape sub_zero plot plot_path w0 w1 ymax :
  window time_data time_range = Ok (w0, w1) ->
  seq_max (slice signal_data w0 w1) = Ok ymax ->
  (forall e,
      curve_fit lorentzian (slice time_data w0 w1) (slice signal_data w0 w1)
                (np_average time_range, 1, ymax) = Raise e ->
      snr curve_fit time_data signal_data noise_data time_range line_shape
          sub_zero plot plot_path
      = ([CurveFit "lorentzian" (slice time_data w0 w1)
                   (slice signal_data w0 w1) (np_average time_range, 1, ymax)],
         Raise e)) /\
  (forall pl e,
      curve_fit lorentzian (slice time_data w0 w1) (slice signal_data w0 w1)
                (np_average time_range, 1, ymax) = Ok pl ->
      curve_fit gaussian (slice time_data w0 w1) (slice signal_data w0 w1)
                (np_average time_range, 1, ymax) = Raise e ->
      snr curve_fit time_data signal_data noise_data time_range line_shape
          sub_zero plot plot_path
      = ([CurveFit "lorentzian" (slice time_data w0 w1)
                   (slice signal_data w0 w1) (np_average time_range, 1, ymax);
          CurveFit "gaussian" (slice time_data w0 w1)
                   (slice signal_data w0 w1) (np_average time_range, 1, ymax)],
         Raise e)).
Proof.
  intros Hwin Hymax. split.
  - intros e Hl. unfold snr. rewrite Hwin, bind_lift_ok, Hymax, bind_lift_ok.
    now rewrite (fit_raise _ _ _ _ _ _ _ Hl).
  - intros pl e Hl Hg. unfold snr.
    rewrite Hwin, bind_lift_ok, Hymax, bind_lift_ok.
    now rewrite (fit_ok _ _ _ _ _ _ _ Hl), (fit_raise _ _ _ _ _ _ _ Hg).
Qed.

Lemma solver_failure_propagates_witness :
  snr (fit_fails RuntimeError) time3 peak3 blank3 (0, 2) "gaussian"
      true true None
  = ([CurveFit "lorentzian" (slice time3 0 2) (slice peak3 0 2)
               (np_average (0, 2), 1, fold_max 0 [1])],
     Raise RuntimeError).
Proof.
  refine (proj1 (solver_failure_propagates (fit_fails RuntimeError) time3 peak3
                   blank3 (0, 2) "gaussian" true true None 0%nat 2%nat
                   (fold_max 0 [1]) _ _) RuntimeError _).
  - apply time3_window.
  - reflexivity.
  - reflexivity.
Defined.

(** X11. When the two bounds of the range are turned into indices that are not
    in order (the same index included), or the signal trace is too short to
    reach the first index, the call stops with ValueError before any solver
    call, whatever the values of the bounds. *)
Theorem collapsed_window_fails curve_fit time_data signal_data noise_data
        time_range line_shape sub_zero plot plot_path w0 w1 :
  window time_data time_range = Ok (w0, w1) ->
  (w1 <= w0)%nat \/ (length signal_data <= w0)%nat ->
  snr curve_fit time_data signal_data noise_data time_range line_shape
      sub_zero plot plot_path = ([], Raise ValueError).
Proof.
  intros Hwin Hcol. unfold snr. rewrite Hwin, bind_lift_ok.
  now rewrite (slice_out_of_range signal_data w0 w1 Hcol).
Qed.

Lemma collapsed_window_fails_witness :
  snr (fit_to (1, 1, 1)) time3 peak3 blank3 (9 / 10, 11 / 10) "gaussian"
      true false None = ([], Raise ValueError).
Proof.
  apply (collapsed_window_fails (fit_to (1, 1, 1)) time3 peak3 blank3
           (9 / 10, 11 / 10) "gaussian" true false None 1 1).
  - apply window_closest. split; apply time3_middle; lra.
  - left. lia.
Defined.

Lemma empty_noise_window_outcome curve_fit time_data signal_data noise_data
      time_range line_shape sub_zero plot plot_path pl pg c w h b e :
  fits curve_fit time_data signal_data time_range pl pg ->
  chosen line_shape pl pg (c, w, h) ->
  closest time_data (c - 10 * Rabs w) b ->
  closest time_data (c + 10 * Rabs w) e ->
  (e <= b)%nat \/ (length noise_data <= b)%nat ->
  outcome (snr curve_fit time_data signal_data noise_data time_range
               line_shape sub_zero plot plot_path) = Raise ValueError.
Proof.
  intros Hfit Hsel Hb He Hempty.
  rewrite (Rmult_comm 10) in Hb, He. apply nearest_closest in Hb, He.
  rewrite (snr_after_fit _ _ _ _ _ _ _ _ _ _ _ _ _ _ _ _ Hfit Hsel Hb He).
  unfold peak_to_peak_ratio.
  now rewrite (slice_out_of_range noise_data b e Hempty).
Qed.



(** X13. When the selected fit has width zero the noise window is empty, and
    the call stops with ValueError, whatever the traces. *)
Theorem zero_width_fit_fails curve_fit time_data signal_data noise_data
        time_range line_shape sub_zero plot plot_path pl pg c h :
  fits curve_fit time_data signal_data time_range pl pg ->
  chosen line_shape pl pg (c, 0, h) ->
  outcome (snr curve_fit time_data signal_data noise_data time_range
               line_shape sub_zero plot plot_path) = Raise ValueError.
Proof.
  intros Hfit Hsel.
  destruct (nearest_total time_data c (fits_nonempty _ _ _ _ _ _ Hfit)) as [i Hi].
  apply nearest_closest in Hi.
  apply (empty_noise_window_outcome _ _ _ _ _ _ _ _ _ _ _ _ _ _ i i Hfit Hsel).
  - now rewrite Rabs_R0, Rmult_0_r, Rminus_0_r.
  - now rewrite Rabs_R0, Rmult_0_r, Rplus_0_r.
  - left. lia.
Qed.

Lemma zero_width_fit_fails_witness :
  outcome (snr (fit_to (1, 0, 1)) time3 peak3 blank3 (0, 2) "lorentzian"
               true false None) = Raise ValueError.
Proof.
  apply (zero_width_fit_fails (fit_to (1, 0, 1)) time3 peak3 blank3 (0, 2)
           "lorentzian" true false None (1, 0, 1) (1, 0, 1) 1 1).
  - eapply time3_fits. reflexivity.
  - right. split; reflexivity.
Defined.

(** ** Further properties of a call: drawing *)

Lemma events_bind {A B} (m : M A) (f : A -> M B) :
  events (bind m f)
  = events m ++ match outcome m with
                | Ok a => events (f a)
                | Raise _ => []
                end.
Proof.
  destruct m as [l [a|e]]; cbn.
  - now destruct (f a).
  - now rewrite app_nil_r.
Qed.

Lemma events_fit curve_fit shape f x y p0 :
  events (fit curve_fit shape f x y p0) = [CurveFit shape x y p0].
Proof. unfold fit. now rewrite bind_emit. Qed.

Lemma draw_events (plot_path : option string) (x y : list R)
      (cl wl hl cg wg hg : R) :
  x <> [] -> y <> [] ->
  events (draw true plot_path x y (cl, wl, hl) (cg, wg, hg))
  = [PlotCurve x (map Fin y);
     PlotCurve x (lorentzian x cl wl hl);
     PlotCurve x (gaussian x cg wg hg)]
    ++ match plot_path with
       | Some path => [SaveFigure path]
       | None => []
       end.
Proof.
  intros Hx Hy.
  destruct (seq_min_total x Hx) as [a Ha], (seq_max_total x Hx) as [b Hb].
  destruct (seq_min_total y Hy) as [c Hc], (seq_max_total y Hy) as [d Hd].
  unfold draw. rewrite !bind_emit, Ha, Hb, Hc, Hd, !bind_lift_ok.
  destruct plot_path; reflexivity.
Qed.

Lemma window_slices_nonempty (time_data signal_data : list R)
      (time_range : R * R) (w0 w1 : nat) (ymax : R) :
  window time_data time_range = Ok (w0, w1) ->
  seq_max (slice signal_data w0 w1) = Ok ymax ->
  slice time_data w0 w1 <> [] /\ slice signal_data w0 w1 <> [].
Proof.
  intros Hwin Hymax.
  assert (Hy : slice signal_data w0 w1 <> [])
    by (eapply seq_max_ok_nonempty; eassumption).
  split; [|exact Hy].
  apply slice_nonempty_inv in Hy. apply slice_nonempty; [tauto|].
  destruct time_range as [t0 t1].
  apply window_closest in Hwin as [C0 _]. now apply closest_lt_length in C0.
Qed.

(** The events of any call: at most the two solver calls, then, only when
    the value has been computed, what the drawing adds. *)
Lemma snr_events_shape curve_fit time_data signal_data noise_data time_range
      line_shape sub_zero plot plot_path :
  exists pre rest,
    events (snr curve_fit time_data signal_data noise_data time_range
                line_shape sub_zero plot plot_path) = pre ++ rest /\
    (length pre <= 2)%nat /\
    Forall (fun ev => is_drawing ev = false) pre /\
    (rest = [] \/
     exists x y pl pg,
       x <> [] /\ y <> [] /\ rest = events (draw plot plot_path x y pl pg)).
Proof.
  unfold snr.
  destruct (window time_data time_range) as [[w0 w1]|e0] eqn:Hwin.
  2: { exists [], []. cbn. auto. }
  rewrite bind_lift_ok.
  destruct (seq_max (slice signal_data w0 w1)) as [ymax|e1] eqn:Hymax.
  2: { exists [], []. cbn. auto. }
  destruct (window_slices_nonempty _ _ _ _ _ _ Hwin Hymax) as [Hx Hy].
  rewrite bind_lift_ok, events_bind, events_fit, outcome_fit.
  destruct (curve_fit lorentzian _ _ _) as [pl|e2].
  2: { eexists [_], []. cbn. repeat split; auto. }
  rewrite events_bind, events_fit, outcome_fit.
  destruct (curve_fit gaussian _ _ _) as [pg|e3].
  2: { eexists [_; _], []. cbn. repeat split; auto. }
  assert (Hpre : forall rest,
             rest = [] \/
             (exists x y pl pg,
                 x <> [] /\ y <> [] /\
                 rest = events (draw plot plot_path x y pl pg)) ->
             exists pre rest',
               [CurveFit "lorentzian" (slice time_data w0 w1)
                         (slice signal_data w0 w1)
                         (np_average time_range, 1, ymax)]
               ++ [CurveFit "gaussian" (slice time_data w0 w1)
                            (slice signal_data w0 w1)
                            (np_average time_range, 1, ymax)] ++ rest
               = pre ++ rest' /\
               (length pre <= 2)%nat /\
               Forall (fun ev => is_drawing ev = false) pre /\
               (rest' = [] \/
                exists x y pl pg,
                  x <> [] /\ y <> [] /\
                  rest' = events (draw plot plot_path x y pl pg))).
  { intros rest Hrest. eexists [_; _], rest. cbn. repeat split; auto. }
  destruct (dict_get _ line_shape) as [[[c w] h]|e4];
    [|apply Hpre; now left].
  rewrite bind_lift_ok.
  destruct (nearest time_data (c - Rabs w * 10)) as [b|e5];
    [|apply Hpre; now left].
  rewrite bind_lift_ok.
  destruct (nearest time_data (c + Rabs w * 10)) as [e|e6];
    [|apply Hpre; now left].
  rewrite bind_lift_ok.
  destruct (seq_max (slice noise_data b e)) as [hi|e7];
    [|apply Hpre; now left].
  rewrite bind_lift_ok.
  destruct (seq_min (slice noise_data b e)) as [lo|e8];
    [|apply Hpre; now left].
  rewrite bind_lift_ok, events_bind, draw_outcome by assumption.
  cbn [ret events fst]. rewrite app_nil_r.
  apply Hpre. right. eauto 8.
Qed.

(** X15. Without [plot] nothing is drawn or written, whatever [plot_path] is;
    without a [plot_path] nothing is written, whatever [plot] is; and no
    call runs the solver more than twice. *)
Theorem draws_only_when_asked curve_fit time_data signal_data noise_data
        time_range line_shape sub_zero plot plot_path :
  Forall (fun ev => is_drawing ev = false)
         (events (snr curve_fit time_data signal_data noise_data time_range
                      line_shape sub_zero false plot_path)) /\
  Forall (fun ev => is_saving ev = false)
         (events (snr curve_fit time_data signal_data noise_data time_range
                      line_shape sub_zero plot None)) /\
  (length (filter (fun ev => negb (is_drawing ev))
                  (events (snr curve_fit time_data signal_data noise_data
                               time_range line_shape sub_zero plot plot_path)))
   <= 2)%nat.
Proof.
  split; [|split].
  - destruct (snr_events_shape curve_fit time_data signal_data noise_data
                time_range line_shape sub_zero false plot_path)
      as (pre & rest & -> & _ & Hpre & Hrest).
    apply Forall_app. split; [exact Hpre|].
    destruct Hrest as [->|(x & y & pl & pg & _ & _ & ->)]; constructor.
  - destruct (snr_events_shape curve_fit time_data signal_data noise_data
                time_range line_shape sub_zero plot None)
      as (pre & rest & -> & _ & Hpre & Hrest).
    apply Forall_app. split.
    + eapply Forall_impl; [|exact Hpre]. intros [] H; try discriminate.
      reflexivity.
    + destruct Hrest as [->|(x & y & [[cl wl] hl] & [[cg wg] hg] & Hx & Hy & ->)];
        [constructor|].
      destruct plot; [|constructor].
      rewrite draw_events by assumption. repeat constructor.
  - destruct (snr_events_shape curve_fit time_data signal_data noise_data
                time_range line_shape sub_zero plot plot_path)
      as (pre & rest & -> & Hlen & Hpre & Hrest).
    rewrite filter_app, length_app.
    assert (Hrest0 : filter (fun ev => negb (is_drawing ev)) rest = []).
    { destruct Hrest as [->|(x & y & [[cl wl] hl] & [[cg wg] hg] & Hx & Hy & ->)];
        [reflexivity|].
      destruct plot; [|reflexivity].
      rewrite draw_events by assumption. now destruct plot_path. }
    rewrite Hrest0. pose proof (filter_length_le (fun ev => negb (is_drawing ev)) pre).
    simpl. lia.
Qed.

(** X16. When a call succeeds and [plot] is set, its events are the two solver
    calls, then three curves on the windowed time points (the windowed
    signal, the Lorentzian and the Gaussian, each with its own fitted
    parameters, whichever shape was selected) and then, when a path is
    given, the writing of the figure. *)
Theorem plotted_run_events curve_fit time_data signal_data noise_data
        time_range line_shape sub_zero plot_path w0 w1 ymax
        cl wl hl cg wg hg v :
  window time_data time_range = Ok (w0, w1) ->
  seq_max (slice signal_data w0 w1) = Ok ymax ->
  curve_fit lorentzian (slice time_data w0 w1) (slice signal_data w0 w1)
            (np_average time_range, 1, ymax) = Ok (cl, wl, hl) ->
  curve_fit gaussian (slice time_data w0 w1) (slice signal_data w0 w1)
            (np_average time_range, 1, ymax) = Ok (cg, wg, hg) ->
  outcome (snr curve_fit time_data signal_data noise_data time_range
               line_shape sub_zero true plot_path) = Ok v ->
  events (snr curve_fit time_data signal_data noise_data time_range
              line_shape sub_zero true plot_path)
  = [CurveFit "lorentzian" (slice time_data w0 w1) (slice signal_data w0 w1)
              (np_average time_range, 1, ymax);
     CurveFit "gaussian" (slice time_data w0 w1) (slice signal_data w0 w1)
              (np_average time_range, 1, ymax);
     PlotCurve (slice time_data w0 w1) (map Fin (slice signal_data w0 w1));
     PlotCurve (slice time_data w0 w1)
               (lorentzian (slice time_data w0 w1) cl wl hl);
     PlotCurve (slice time_data w0 w1)
               (gaussian (slice time_data w0 w1) cg wg hg)]
    ++ match plot_path with
       | Some path => [SaveFigure path]
       | None => []
       end.
Proof.
  intros Hwin Hymax Hl Hg Hout.
  destruct (window_slices_nonempty _ _ _ _ _ _ Hwin Hymax) as [Hx Hy].
  revert Hout. unfold snr.
  rewrite Hwin, bind_lift_ok, Hymax, bind_lift_ok.
  rewrite (fit_ok _ _ _ _ _ _ _ Hl), (fit_ok _ _ _ _ _ _ _ Hg).
  cbn [bind].
  destruct (dict_get _ line_shape) as [[[c w] h]|e4]; [|discriminate].
  rewrite bind_lift_ok.
  destruct (nearest time_data (c - Rabs w * 10)) as [b|e5]; [|discriminate].
  rewrite bind_lift_ok.
  destruct (nearest time_data (c + Rabs w * 10)) as [e|e6]; [|discriminate].
  rewrite bind_lift_ok.
  destruct (seq_max (slice noise_data b e)) as [hi|e7]; [|discriminate].
  rewrite bind_lift_ok.
  destruct (seq_min (slice noise_data b e)) as [lo|e8]; [|discriminate].
  rewrite bind_lift_ok. intros _.
  rewrite (bind_events_ok _ tt) by (now apply draw_outcome).
  rewrite draw_events by assumption. cbn. now rewrite app_nil_r.
Qed.

Lemma plotted_run_events_witness :
  events (snr (fit_to (1, 1, 1)) time3 peak3 blank3 (0, 2) "gaussian"
              true true (Some "peak.png"%string))
  = [CurveFit "lorentzian" (slice time3 0 2) (slice peak3 0 2)
              (np_average (0, 2), 1, fold_max 0 [1]);
     CurveFit "gaussian" (slice time3 0 2) (slice peak3 0 2)
              (np_average (0, 2), 1, fold_max 0 [1]);
     PlotCurve (slice time3 0 2) (map Fin (slice peak3 0 2));
     PlotCurve (slice time3 0 2) (lorentzian (slice time3 0 2) 1 1 1);
     PlotCurve (slice time3 0 2) (gaussian (slice time3 0 2) 1 1 1)]
    ++ [SaveFigure "peak.png"].
Proof.
  apply (plotted_run_events (fit_to (1, 1, 1)) time3 peak3 blank3 (0, 2)
           "gaussian" true (Some "peak.png"%string) 0%nat 2%nat
           (fold_max 0 [1]) 1 1 1 1 1 1
           (fdiv (Fin (2 * 1)) (Fin (1 / 2 - 0)))).
  - apply time3_window.
  - reflexivity.
  - reflexivity.
  - reflexivity.
  - apply (snr_outcome_spec _ _ _ _ _ _ true _ _ (1, 1, 1) (1, 1, 1) 1 1 1
             0%nat 2%nat).
    + eapply time3_fits. reflexivity.
    + left. split; reflexivity.
    + apply time3_low. rewrite Rabs_R1. lra.
    + apply time3_high. rewrite Rabs_R1. lra.
    + apply pair_is_max. lra.
    + apply pair_is_min. lra.
Defined.

(** ** Further properties of a call: what the traces contribute *)

Lemma bind_ext {A B} (m : M A) (f g : A -> M B) :
  (forall a, f a = g a) -> bind m f = bind m g.
Proof. intros H. destruct m as [l [a|e]]; cbn; [now rewrite H | reflexivity]. Qed.


Lemma slice_map {A B} (f : A -> B) (a : list A) (i j : nat) :
  slice (map f a) i j = map f (slice a i j).
Proof. unfold slice. now rewrite skipn_map, firstn_map. Qed.

Lemma Rmax_offset (a b d : R) : Rmax (a + d) (b + d) = Rmax a b + d.
Proof. unfold Rmax. case_reals. Qed.

Lemma Rmin_offset (a b d : R) : Rmin (a + d) (b + d) = Rmin a b + d.
Proof. unfold Rmin. case_reals. Qed.



Lemma seq_max_offset (d : R) (l : list R) :
  seq_max (offset_by d l) = result_map (fun m => m + d) (seq_max l).
Proof.
  destruct l as [|x l]; [reflexivity|]. cbn. f_equal. unfold fold_max.
  revert x. induction l as [|y l IH]; intros x; [reflexivity|].
  cbn. now rewrite Rmax_offset, IH.
Qed.

Lemma seq_min_offset (d : R) (l : list R) :
  seq_min (offset_by d l) = result_map (fun m => m + d) (seq_min l).
Proof.
  destruct l as [|x l]; [reflexivity|]. cbn. f_equal. unfold fold_min.
  revert x. induction l as [|y l IH]; intros x; [reflexivity|].
  cbn. now rewrite Rmin_offset, IH.
Qed.



(** X17. Adding one constant to every entry of the noise trace changes nothing:
    the same events, the same value or exception. *)
Theorem noise_offset_invariant curve_fit time_data signal_data noise_data
        time_range line_shape sub_zero plot plot_path (d : R) :
  snr curve_fit time_data signal_data (offset_by d noise_data) time_range
      line_shape sub_zero plot plot_path
  = snr curve_fit time_data signal_data noise_data time_range
        line_shape sub_zero plot plot_path.
Proof.
  unfold snr.
  apply bind_ext; intros [w0 w1].
  apply bind_ext; intros ymax.
  apply bind_ext; intros pl.
  apply bind_ext; intros pg.
  apply bind_ext; intros [[c w] h].
  apply bind_ext; intros b.
  apply bind_ext; intros e.
  unfold offset_by. rewrite slice_map.
  fold (offset_by d (slice noise_data b e)).
  rewrite seq_max_offset, seq_min_offset.
  destruct (seq_max (slice noise_data b e)) as [hi|e1]; [|reflexivity].
  cbn [result_map]. rewrite !bind_lift_ok.
  destruct (seq_min (slice noise_data b e)) as [lo|e2]; [|reflexivity].
  cbn [result_map]. rewrite !bind_lift_ok.
  now replace (hi + d - (lo + d)) with (hi - lo) by lra.
Qed.




Lemma slice_nth_error {A} (a : list A) (i j k : nat) :
  nth_error (slice a i j) k
  = if (k <? j - i)%nat then nth_error a (i + k) else None.
Proof. unfold slice. now rewrite nth_error_firstn, nth_error_skipn. Qed.

(** X19. Only the signal points inside the window count: two signal traces that
    agree from the first window index up to, not including, the second give
    the same call, event for event. *)
Theorem signal_outside_window_ignored curve_fit time_data signal_data
        signal_data' noise_data time_range line_shape sub_zero plot plot_path
        w0 w1 :
  window time_data time_range = Ok (w0, w1) ->
  (forall k, (w0 <= k < w1)%nat ->
             nth_error signal_data k = nth_error signal_data' k) ->
  snr curve_fit time_data signal_data noise_data time_range line_shape
      sub_zero plot plot_path
  = snr curve_fit time_data signal_data' noise_data time_range line_shape
        sub_zero plot plot_path.
Proof.
  intros Hwin Hsame.
  assert (Hslice : slice signal_data w0 w1 = slice signal_data' w0 w1).
  { apply nth_error_ext. intros k. rewrite !slice_nth_error.
    destruct (Nat.ltb_spec k (w1 - w0)); [|reflexivity]. apply Hsame. lia. }
  unfold snr. now rewrite Hwin, !bind_lift_ok, Hslice.
Qed.

Lemma signal_outside_window_ignored_witness :
  snr (fit_to (1, 1, 1)) time3 [0; 1; 0] blank3 (0, 2) "gaussian"
      true false None
  = snr (fit_to (1, 1, 1)) time3 [0; 1; 7] blank3 (0, 2) "gaussian"
        true false None.
Proof.
  apply (signal_outside_window_ignored (fit_to (1, 1, 1)) time3 [0; 1; 0]
           [0; 1; 7] blank3 (0, 2) "gaussian" true false None 0 2).
  - apply time3_window.
  - intros k Hk. destruct k as [|[|k]]; [reflexivity | reflexivity | lia].
Defined.

(** * Properties on binary64 numbers *)

Import SpecFloat.

Ltac sf_cases :=
  repeat match goal with
    | x : spec_float |- _ => destruct x as [[]|[]| |[] ? ?]
    end;
  cbn; try congruence; try discriminate; try reflexivity.

Ltac cmp_cases :=
  repeat match goal with
    | |- context [Z.compare ?a ?b] =>
        let H := fresh in destruct (Z.compare_spec a b) as [H|H|H]
    | H : context [Z.compare ?a ?b] |- _ =>
        let H' := fresh in destruct (Z.compare_spec a b) as [H'|H'|H']
    | |- context [Pos.compare_cont Eq ?a ?b] =>
        change (Pos.compare_cont Eq a b) with (Pos.compare a b)
    | H : context [Pos.compare_cont Eq ?a ?b] |- _ =>
        change (Pos.compare_cont Eq a b) with (Pos.compare a b) in H
    | |- context [Pos.compare ?a ?b] =>
        let H := fresh in destruct (Pos.compare_spec a b) as [H|H|H]
    | H : context [Pos.compare ?a ?b] |- _ =>
        let H' := fresh in destruct (Pos.compare_spec a b) as [H'|H'|H']
    end;
  cbn in *; try congruence; try discriminate; try reflexivity; try lia.


Lemma SFleb_ltb_trans (x y z : spec_float) :
  SFleb x y = true -> SFltb y z = true -> SFltb x z = true.
Proof. unfold SFltb, SFleb. sf_cases; cmp_cases. Qed.

Lemma SFleb_trans (x y z : spec_float) :
  SFleb x y = true -> SFleb y z = true -> SFleb x z = true.
Proof. unfold SFleb. sf_cases; cmp_cases. Qed.

Lemma SFltb_leb (x y : spec_float) : SFltb x y = true -> SFleb x y = true.
Proof. unfold SFltb, SFleb. sf_cases; cmp_cases. Qed.


Lemma SFltb_total (x y : spec_float) :
  x <> S754_nan -> y <> S754_nan -> SFltb x y = false -> SFleb y x = true.
Proof. unfold SFltb, SFleb. sf_cases; cmp_cases. Qed.

Lemma SFleb_refl (x : spec_float) : x <> S754_nan -> SFleb x x = true.
Proof. unfold SFleb. sf_cases; cmp_cases. Qed.

Lemma SFeqb_refl_nan (x : spec_float) : SFeqb x x = false <-> x = S754_nan.
Proof. unfold SFeqb. split; sf_cases; cmp_cases. Qed.

Import PrimFloat FloatOps FloatAxioms.
Local Open Scope float_scope.

Lemma is_nan_false (x : float) : is_nan x = false <-> Prim2SF x <> S754_nan.
Proof.
  unfold is_nan. rewrite eqb_spec, negb_false_iff.
  rewrite <- SFeqb_refl_nan. destruct (SFeqb (Prim2SF x) (Prim2SF x)); easy.
Qed.


Lemma leb_ltb_trans (x y z : float) :
  (x <=? y) = true -> (y <? z) = true -> (x <? z) = true.
Proof. rewrite !ltb_spec, leb_spec. apply SFleb_ltb_trans. Qed.

Lemma leb_trans (x y z : float) :
  (x <=? y) = true -> (y <=? z) = true -> (x <=? z) = true.
Proof. rewrite !leb_spec. apply SFleb_trans. Qed.

Lemma ltb_leb (x y : float) : (x <? y) = true -> (x <=? y) = true.
Proof. rewrite ltb_spec, leb_spec. apply SFltb_leb. Qed.


Lemma ltb_total (x y : float) :
  is_nan x = false -> is_nan y = false -> (x <? y) = false -> (y <=? x) = true.
Proof.
  rewrite !is_nan_false, ltb_spec, leb_spec. apply SFltb_total.
Qed.

Lemma leb_refl (x : float) : is_nan x = false -> (x <=? x) = true.
Proof. rewrite is_nan_false, leb_spec. apply SFleb_refl. Qed.

Import F64.



Lemma f64_argmin_from_bound (l : list float) :
  forall min_ind mp i,
    (min_ind < i)%nat -> (argmin_from min_ind mp i l < i + length l)%nat.
Proof.
  induction l as [|x l IH]; intros min_ind mp i Hlt; simpl; [lia|].
  destruct (negb (mp <=? x)).
  - destruct (is_nan x); [lia|]. specialize (IH i x (S i)). lia.
  - specialize (IH min_ind mp (S i)). lia.
Qed.

Lemma f64_np_argmin_bound (l : list float) (i : nat) :
  np_argmin l = Ok i -> (i < length l)%nat.
Proof.
  destruct l as [|x l]; simpl; [discriminate|].
  intros H. injection H as <-. destruct (is_nan x); [lia|].
  pose proof (f64_argmin_from_bound l 0 x 1). lia.
Qed.


(** *** Largest and smallest entry *)

Lemma f64_fold_max_spec (l : list float) :
  no_nan l ->
  forall x, is_nan x = false ->
    let m := fold_left (fun m y => if m <? y then y else m) l x in
    is_max (x :: l) m /\ is_nan m = false.
Proof.
  induction 1 as [|y l Hy Hl IH]; intros x Hx; simpl.
  - split; [|exact Hx]. split; [now left|].
    intros z [<-|[]]. now apply leb_refl.
  - destruct (x <? y) eqn:Hlt.
    + destruct (IH y Hy) as [[Hin Hub] Hm]. split; [|exact Hm]. split.
      * destruct Hin as [<-|Hin]; [right; now left | right; now right].
      * intros z [<-|[<-|Hz]].
        -- eapply leb_trans; [apply ltb_leb; exact Hlt|]. apply Hub. now left.
        -- apply Hub. now left.
        -- apply Hub. now right.
    + destruct (IH x Hx) as [[Hin Hub] Hm]. split; [|exact Hm]. split.
      * destruct Hin as [<-|Hin]; [now left | right; now right].
      * intros z [<-|[<-|Hz]].
        -- apply Hub. now left.
        -- eapply leb_trans; [|apply Hub; now left]. now apply ltb_total.
        -- apply Hub. now right.
Qed.

Lemma f64_fold_min_spec (l : list float) :
  no_nan l ->
  forall x, is_nan x = false ->
    let m := fold_left (fun m y => if y <? m then y else m) l x in
    is_min (x :: l) m /\ is_nan m = false.
Proof.
  induction 1 as [|y l Hy Hl IH]; intros x Hx; simpl.
  - split; [|exact Hx]. split; [now left|].
    intros z [<-|[]]. now apply leb_refl.
  - destruct (y <? x) eqn:Hlt.
    + destruct (IH y Hy) as [[Hin Hlb] Hm]. split; [|exact Hm]. split.
      * destruct Hin as [<-|Hin]; [right; now left | right; now right].
      * intros z [<-|[<-|Hz]].
        -- eapply leb_trans; [apply Hlb; now left|]. apply ltb_leb; exact Hlt.
        -- apply Hlb. now left.
        -- apply Hlb. now right.
    + destruct (IH x Hx) as [[Hin Hlb] Hm]. split; [|exact Hm]. split.
      * destruct Hin as [<-|Hin]; [now left | right; now right].
      * intros z [<-|[<-|Hz]].
        -- apply Hlb. now left.
        -- eapply leb_trans; [apply Hlb; now left|]. now apply ltb_total.
        -- apply Hlb. now right.
Qed.

Lemma f64_py_max_spec (l : list float) :
  l <> [] -> no_nan l -> exists m, py_max l = Ok m /\ is_max l m.
Proof.
  destruct l as [|x l]; [congruence|]. intros _ Hnan.
  inversion Hnan as [|? ? Hx Hl]; subst.
  eexists. split; [reflexivity|]. now apply f64_fold_max_spec.
Qed.

Lemma f64_py_min_spec (l : list float) :
  l <> [] -> no_nan l -> exists m, py_min l = Ok m /\ is_min l m.
Proof.
  destruct l as [|x l]; [congruence|]. intros _ Hnan.
  inversion Hnan as [|? ? Hx Hl]; subst.
  eexists. split; [reflexivity|]. now apply f64_fold_min_spec.
Qed.

Lemma f64_py_max_total (l : list float) : l <> [] -> exists m, py_max l = Ok m.
Proof. destruct l; [congruence|]. simpl. eauto. Qed.

Lemma f64_py_min_total (l : list float) : l <> [] -> exists m, py_min l = Ok m.
Proof. destruct l; [congruence|]. simpl. eauto. Qed.

Lemma f64_np_max_nonempty (l : list float) (m : float) :
  np_max l = Ok m -> l <> [].
Proof. destruct l; discriminate. Qed.

(** *** Nearest index *)

Lemma f64_distances_length (time_data : list float) (t : float) :
  length (np_abs (np_sub time_data t)) = length time_data.
Proof. unfold np_abs, np_sub. now rewrite !length_map. Qed.



Lemma f64_nearest_bound (time_data : list float) (t : float) (i : nat) :
  nearest time_data t = Ok i -> (i < length time_data)%nat.
Proof.
  intros H. apply f64_np_argmin_bound in H. now rewrite f64_distances_length in H.
Qed.


Lemma f64_nearest_error (time_data : list float) (t : float) (e : exn) :
  nearest time_data t = Raise e -> time_data = [] /\ e = ValueError.
Proof.
  destruct time_data as [|x l]; cbn; [|discriminate].
  intros H. injection H as <-. auto.
Qed.

Lemma f64_window_ok (time_data : list float) (t0 t1 : float) (w0 w1 : nat) :
  window time_data (t0, t1) = Ok (w0, w1) <->
  nearest time_data t0 = Ok w0 /\ nearest time_data t1 = Ok w1.
Proof.
  unfold window. cbn [fst snd]. split.
  - destruct (nearest time_data t0); [|discriminate].
    destruct (nearest time_data t1); [|discriminate].
    intros H. injection H as <- <-. auto.
  - now intros [-> ->].
Qed.

Lemma f64_window_error (time_data : list float) (time_range : float * float)
      (e : exn) :
  window time_data time_range = Raise e -> time_data = [] /\ e = ValueError.
Proof.
  unfold window.
  destruct (nearest time_data (fst time_range)) eqn:H0.
  - destruct (nearest time_data (snd time_range)) eqn:H1; [discriminate|].
    intros H. injection H as <-. now apply f64_nearest_error in H1.
  - intros H. injection H as <-. now apply f64_nearest_error in H0.
Qed.


(** *** Running a computation *)

Lemma f64_bind_lift_ok {A B} (a : A) (f : A -> M B) : bind (lift (Ok a)) f = f a.
Proof. unfold bind, lift. destruct (f a). reflexivity. Qed.

Lemma f64_outcome_bind {A B} (m : M A) (f : A -> M B) :
  outcome (bind m f)
  = match outcome m with
    | Ok a => outcome (f a)
    | Raise e => Raise e
    end.
Proof. destruct m as [l [a|e]]; cbn; [|reflexivity]. now destruct (f a). Qed.

Lemma f64_events_bind {A B} (m : M A) (f : A -> M B) :
  events (bind m f)
  = events m ++ match outcome m with
                | Ok a => events (f a)
                | Raise _ => []
                end.
Proof.
  destruct m as [l [a|e]]; cbn.
  - now destruct (f a).
  - now rewrite app_nil_r.
Qed.

Lemma f64_bind_ok {A B} (l : list event) (a : A) (f : A -> M B) :
  bind (l, Ok a) f = (l ++ events (f a), outcome (f a)).
Proof. cbn. now destruct (f a). Qed.

Lemma f64_run_eq {A} (m : M A) : m = (events m, outcome m).
Proof. now destruct m. Qed.

Lemma f64_chosen_dict_get (line_shape : string) (pl pg p : float * float * float) :
  chosen line_shape pl pg p ->
  dict_get [("lorentzian"%string, pl); ("gaussian"%string, pg)] line_shape = Ok p.
Proof. intros [[-> ->]|[-> ->]]; reflexivity. Qed.

Section F64Runs.

Variable np_exp : float -> float.
Variable curve_fit : solver.
Variable matplotlib : event -> result unit.

Lemma f64_snr_after_fit time_data signal_data noise_data time_range line_shape
      sub_zero plot plot_path title w0 w1 ymax pl pg c w h b e :
  window time_data time_range = Ok (w0, w1) ->
  np_max (slice signal_data w0 w1) = Ok ymax ->
  curve_fit lorentzian (slice time_data w0 w1) (slice signal_data w0 w1)
            (np_average time_range, 1, ymax) = Ok pl ->
  curve_fit (gaussian np_exp) (slice time_data w0 w1) (slice signal_data w0 w1)
            (np_average time_range, 1, ymax) = Ok pg ->
  chosen line_shape pl pg (c, w, h) ->
  nearest time_data (c - abs w * 10) = Ok b ->
  nearest time_data (c + abs w * 10) = Ok e ->
  let rest :=
    finish np_exp matplotlib plot plot_path title (slice time_data w0 w1)
           (slice signal_data w0 w1) pl pg
           (peak_to_peak_ratio (bool_plus_one sub_zero) h
                               (slice noise_data b e)) in
  snr np_exp curve_fit matplotlib time_data signal_data noise_data time_range
      line_shape sub_zero plot plot_path title
  = (CurveFit "lorentzian" (slice time_data w0 w1) (slice signal_data w0 w1)
              (np_average time_range, 1, ymax)
     :: CurveFit "gaussian" (slice time_data w0 w1) (slice signal_data w0 w1)
                 (np_average time_range, 1, ymax)
     :: events rest,
     outcome rest).
Proof.
  intros Hwin Hymax Hl Hg Hsel Hb He rest.
  apply f64_chosen_dict_get in Hsel.
  unfold snr. rewrite Hwin, f64_bind_lift_ok, Hymax, f64_bind_lift_ok.
  unfold fit. rewrite Hl, Hg, !f64_bind_ok.
  rewrite Hsel, f64_bind_lift_ok, Hb, f64_bind_lift_ok, He, f64_bind_lift_ok.
  assert (Hrest : rest
                  = bind (lift (py_max (slice noise_data b e)))
                      (fun hi =>
                         bind (lift (py_min (slice noise_data b e)))
                           (fun lo =>
                              bind (draw np_exp matplotlib plot plot_path title
                                         (slice time_data w0 w1)
                                         (slice signal_data w0 w1) pl pg
                                         (bool_plus_one sub_zero * h / (hi - lo)))
                                (fun _ => ret (bool_plus_one sub_zero * h
                                               / (hi - lo)))))).
  { unfold rest, peak_to_peak_ratio, finish.
    destruct (py_max (slice noise_data b e)) as [hi|e1]; [|reflexivity].
    rewrite f64_bind_lift_ok.
    destruct (py_min (slice noise_data b e)) as [lo|e2]; [|reflexivity].
    now rewrite f64_bind_lift_ok. }
  now rewrite <- Hrest.
Qed.

Lemma f64_finish_off plot_path title x y pl pg r :
  finish np_exp matplotlib false plot_path title x y pl pg r = ([], r).
Proof. destruct r; reflexivity. Qed.

Lemma f64_finish_value plot plot_path title x y pl pg r v :
  outcome (finish np_exp matplotlib plot plot_path title x y pl pg r) = Ok v -> r = Ok v.
Proof.
  destruct r as [v'|e]; cbn; [|discriminate].
  rewrite f64_outcome_bind.
  destruct (outcome (draw _ _ _ _ _ _ _ _ _ _)); [|discriminate].
  cbn. congruence.
Qed.

Lemma f64_fits_outcome time_data signal_data noise_data time_range line_shape
      sub_zero plot plot_path title pl pg c w h b e :
  fits np_exp curve_fit time_data signal_data time_range pl pg ->
  chosen line_shape pl pg (c, w, h) ->
  nearest time_data (c - abs w * 10) = Ok b ->
  nearest time_data (c + abs w * 10) = Ok e ->
  outcome (snr np_exp curve_fit matplotlib time_data signal_data noise_data
               time_range line_shape sub_zero false plot_path title)
  = peak_to_peak_ratio (bool_plus_one sub_zero) h (slice noise_data b e) /\
  forall v,
    outcome (snr np_exp curve_fit matplotlib time_data signal_data noise_data
                 time_range line_shape sub_zero plot plot_path title) = Ok v ->
    peak_to_peak_ratio (bool_plus_one sub_zero) h (slice noise_data b e) = Ok v.
Proof.
  intros (w0 & w1 & ymax & Hwin & Hymax & Hl & Hg) Hsel Hb He.
  rewrite !(f64_snr_after_fit _ _ _ _ _ _ _ _ _ _ _ _ _ _ _ _ _ _ _
              Hwin Hymax Hl Hg Hsel Hb He).
  cbv zeta. cbn [outcome snd]. split.
  - now rewrite f64_finish_off.
  - intros v. apply f64_finish_value.
Qed.

End F64Runs.

(** ** The ratio on binary64 numbers *)

(** C1, as the code has it. When both fits succeed and the noise window
    holds points, none of them NaN, the value returned without plotting is
    the binary64 quotient of (2 if [sub_zero] else 1) times the fitted
    height of the selected shape by the difference of a largest and a
    smallest entry of the noise-window slice; with plotting, a call that
    returns returns the same value. *)
Theorem snr_ratio_binary64 np_exp curve_fit matplotlib time_data signal_data
        noise_data time_range line_shape plot_path title pl pg c w h b e :
  fits np_exp curve_fit time_data signal_data time_range pl pg ->
  chosen line_shape pl pg (c, w, h) ->
  nearest time_data (c - abs w * 10) = Ok b ->
  nearest time_data (c + abs w * 10) = Ok e ->
  slice noise_data b e <> [] ->
  no_nan (slice noise_data b e) ->
  exists hi lo,
    is_max (slice noise_data b e) hi /\
    is_min (slice noise_data b e) lo /\
    (forall sub_zero,
        outcome (snr np_exp curve_fit matplotlib time_data signal_data
                     noise_data time_range line_shape sub_zero false plot_path
                     title)
        = Ok ((if sub_zero then 2 else 1) * h / (hi - lo))) /\
    (forall sub_zero plot v,
        outcome (snr np_exp curve_fit matplotlib time_data signal_data
                     noise_data time_range line_shape sub_zero plot plot_path
                     title) = Ok v ->
        v = (if sub_zero then 2 else 1) * h / (hi - lo)).
Proof.
  intros Hfit Hsel Hb He Hne Hnan.
  destruct (f64_py_max_spec _ Hne Hnan) as [hi [Hhi Hmax]].
  destruct (f64_py_min_spec _ Hne Hnan) as [lo [Hlo Hmin]].
  exists hi, lo. split; [exact Hmax|]. split; [exact Hmin|].
  assert (Hratio : forall sub_zero,
             peak_to_peak_ratio (bool_plus_one sub_zero) h (slice noise_data b e)
             = Ok ((if sub_zero then 2 else 1) * h / (hi - lo))).
  { intros sub_zero. unfold peak_to_peak_ratio. now rewrite Hhi, Hlo. }
  split.
  - intros sub_zero. rewrite <- Hratio.
    apply (f64_fits_outcome np_exp curve_fit matplotlib _ _ _ _ _ _ false _ _
             _ _ _ _ _ _ _ Hfit Hsel Hb He).
  - intros sub_zero plot v Hv.
    apply (f64_fits_outcome np_exp curve_fit matplotlib _ _ _ _ _ _ plot _ _
             _ _ _ _ _ _ _ Hfit Hsel Hb He) in Hv.
    rewrite Hratio in Hv. congruence.
Qed.

Lemma f64_time5_fits (signal_data : list float) (ymax : float)
      (p : float * float * float) :
  np_max (slice signal_data 0 4) = Ok ymax ->
  fits no_exp (fit_to p) time5 signal_data (0, 4) p p.
Proof.
  intros Hymax. exists 0%nat, 4%nat, ymax.
  split; [reflexivity|]. split; [exact Hymax|]. split; reflexivity.
Qed.

Lemma snr_ratio_binary64_witness :
  exists hi lo,
    is_max (slice blank5 0 4) hi /\
    is_min (slice blank5 0 4) lo /\
    (forall sub_zero,
        outcome (snr no_exp (fit_to (2, 1, 4)) quiet time5 peak5 blank5 (0, 4)
                     "gaussian" sub_zero false None "peak")
        = Ok ((if sub_zero then 2 else 1) * 4 / (hi - lo))) /\
    (forall sub_zero plot v,
        outcome (snr no_exp (fit_to (2, 1, 4)) quiet time5 peak5 blank5 (0, 4)
                     "gaussian" sub_zero plot None "peak") = Ok v ->
        v = (if sub_zero then 2 else 1) * 4 / (hi - lo)).
Proof.
  apply (snr_ratio_binary64 no_exp (fit_to (2, 1, 4)) quiet time5 peak5 blank5
           (0, 4) "gaussian" None "peak" (2, 1, 4) (2, 1, 4) 2 1 4 0 4).
  - now apply (f64_time5_fits peak5 4).
  - left. split; reflexivity.
  - reflexivity.
  - reflexivity.
  - discriminate.
  - repeat constructor.
Defined.

(** C1 fails where a quotient leaves the normal range. On a peak of the
    smallest positive height, which the parameters (2, 1, [tiny]) reproduce
    exactly, over a blank of amplitude 2: with [sub_zero] the call returns
    [tiny], without it 0, and twice 0 is not [tiny]. On a peak of height
    2^1023, which the parameters (2, 1, [tall]) reproduce exactly: with
    [sub_zero] the call returns infinity, without it 2^1022, and twice
    2^1022 is not infinity. Whatever the solver returns for the
    Gaussian. *)
Lemma doubling_counterexample :
  lorentzian [0; 1; 2; 3] 2 1 tiny = [0; 0; tiny; 0] /\
  (forall np_exp curve_fit matplotlib pg,
      curve_fit lorentzian [0; 1; 2; 3] [0; 0; tiny; 0] (2, 1, tiny)
      = Ok (2, 1, tiny) ->
      curve_fit (gaussian np_exp) [0; 1; 2; 3] [0; 0; tiny; 0] (2, 1, tiny)
      = Ok pg ->
      outcome (snr np_exp curve_fit matplotlib time5 tiny_peak5 blank5 (0, 4)
                   "lorentzian" true false None "peak") = Ok tiny /\
      outcome (snr np_exp curve_fit matplotlib time5 tiny_peak5 blank5 (0, 4)
                   "lorentzian" false false None "peak") = Ok 0 /\
      (2 * 0 =? tiny) = false) /\
  lorentzian time5 2 1 tall = tall_peak5 /\
  (forall np_exp curve_fit matplotlib pg,
      curve_fit lorentzian (slice time5 0 4) (slice tall_peak5 0 4) (2, 1, tall)
      = Ok (2, 1, tall) ->
      curve_fit (gaussian np_exp) (slice time5 0 4) (slice tall_peak5 0 4)
                (2, 1, tall) = Ok pg ->
      outcome (snr np_exp curve_fit matplotlib time5 tall_peak5 blank5 (0, 4)
                   "lorentzian" true false None "peak") = Ok infinity /\
      outcome (snr np_exp curve_fit matplotlib time5 tall_peak5 blank5 (0, 4)
                   "lorentzian" false false None "peak") = Ok 0x1p1022 /\
      (2 * 0x1p1022 =? infinity) = false).
Proof.
  split; [reflexivity|]. split; [|split; [reflexivity|]].
  - intros np_exp curve_fit matplotlib pg Hl Hg.
    assert (Hfit : fits np_exp curve_fit time5 tiny_peak5 (0, 4) (2, 1, tiny) pg).
    { exists 0%nat, 4%nat, tiny. repeat split; assumption. }
    assert (Hsel : chosen "lorentzian" (2, 1, tiny) pg (2, 1, tiny))
      by (right; split; reflexivity).
    assert (Hb : nearest time5 (2 - abs 1 * 10) = Ok 0%nat) by reflexivity.
    assert (He : nearest time5 (2 + abs 1 * 10) = Ok 4%nat) by reflexivity.
    split; [|split; [|reflexivity]].
    + now rewrite (proj1 (f64_fits_outcome np_exp curve_fit matplotlib _ _ blank5
                            _ _ true false None "peak" _ _ _ _ _ _ _
                            Hfit Hsel Hb He)).
    + now rewrite (proj1 (f64_fits_outcome np_exp curve_fit matplotlib _ _ blank5
                            _ _ false false None "peak" _ _ _ _ _ _ _
                            Hfit Hsel Hb He)).
  - intros np_exp curve_fit matplotlib pg Hl Hg.
    assert (Hfit : fits np_exp curve_fit time5 tall_peak5 (0, 4) (2, 1, tall) pg).
    { exists 0%nat, 4%nat, tall. repeat split; assumption. }
    assert (Hsel : chosen "lorentzian" (2, 1, tall) pg (2, 1, tall))
      by (right; split; reflexivity).
    assert (Hb : nearest time5 (2 - abs 1 * 10) = Ok 0%nat) by reflexivity.
    assert (He : nearest time5 (2 + abs 1 * 10) = Ok 4%nat) by reflexivity.
    split; [|split; [|reflexivity]].
    + now rewrite (proj1 (f64_fits_outcome np_exp curve_fit matplotlib _ _ blank5
                            _ _ true false None "peak" _ _ _ _ _ _ _
                            Hfit Hsel Hb He)).
    + now rewrite (proj1 (f64_fits_outcome np_exp curve_fit matplotlib _ _ blank5
                            _ _ false false None "peak" _ _ _ _ _ _ _
                            Hfit Hsel Hb He)).
Qed.

(** ** Windowing on binary64 numbers *)

Lemma f64_slice_empty_run np_exp curve_fit matplotlib time_data signal_data
      noise_data time_range line_shape sub_zero plot plot_path title w0 w1 :
  window time_data time_range = Ok (w0, w1) ->
  slice signal_data w0 w1 = [] ->
  snr np_exp curve_fit matplotlib time_data signal_data noise_data time_range
      line_shape sub_zero plot plot_path title = ([], Raise ValueError).
Proof.
  intros Hwin Hy. unfold snr. now rewrite Hwin, f64_bind_lift_ok, Hy.
Qed.






(** The product [width * 10] is rounded before the ends are formed: a
    width of 0.05 around centre 5 gives the ends 4.5 and 5.5, both midway
    between two points of the axis, hence the indices 4 and 5. *)
Example noise_window_rounded_width :
  (0x1.999999999999ap-5 * 10 =? 0x1p-1) = true /\
  nearest [0; 1; 2; 3; 4; 5; 6; 7; 8; 9; 10] (5 - abs 0x1.999999999999ap-5 * 10)
  = Ok 4%nat /\
  nearest [0; 1; 2; 3; 4; 5; 6; 7; 8; 9; 10] (5 + abs 0x1.999999999999ap-5 * 10)
  = Ok 5%nat.
Proof. repeat split. Qed.

(** ** Ranges that are not in order, on binary64 numbers *)

Lemma f64_collapsed_run np_exp curve_fit matplotlib time_data signal_data
      noise_data time_range line_shape sub_zero plot plot_path title w0 w1 :
  window time_data time_range = Ok (w0, w1) ->
  (w1 <= w0)%nat ->
  snr np_exp curve_fit matplotlib time_data signal_data noise_data time_range
      line_shape sub_zero plot plot_path title = ([], Raise ValueError).
Proof.
  intros Hwin Hle. apply (f64_slice_empty_run _ _ _ _ _ _ _ _ _ _ _ _ w0 w1 Hwin).
  now apply slice_empty.
Qed.

Lemma f64_equal_bounds_run np_exp curve_fit matplotlib time_data signal_data
      noise_data t line_shape sub_zero plot plot_path title :
  snr np_exp curve_fit matplotlib time_data signal_data noise_data (t, t)
      line_shape sub_zero plot plot_path title = ([], Raise ValueError).
Proof.
  destruct (window time_data (t, t)) as [[w0 w1]|e] eqn:Hwin.
  - apply (f64_collapsed_run _ _ _ _ _ _ _ _ _ _ _ _ w0 w1 Hwin).
    apply f64_window_ok in Hwin as [H0 H1]. rewrite H0 in H1.
    injection H1 as ->. lia.
  - unfold snr. rewrite Hwin. apply f64_window_error in Hwin as [_ ->].
    reflexivity.
Qed.

(** C4, as the code has it. The range itself is never checked. A call
    stops with ValueError, before any solver call, when the two bounds are
    the same number, and whenever the index found for the start is not
    below the index found for the end. *)
Theorem equal_bounds_fail_before_fitting np_exp curve_fit matplotlib time_data
        signal_data noise_data t_start t_end line_shape sub_zero plot plot_path
        title :
  t_start = t_end \/
  (exists w0 w1, window time_data (t_start, t_end) = Ok (w0, w1) /\
                 (w1 <= w0)%nat) ->
  snr np_exp curve_fit matplotlib time_data signal_data noise_data
      (t_start, t_end) line_shape sub_zero plot plot_path title
  = ([], Raise ValueError).
Proof.
  intros [->|(w0 & w1 & Hwin & Hle)].
  - apply f64_equal_bounds_run.
  - eapply f64_collapsed_run; eassumption.
Qed.

Lemma equal_bounds_fail_before_fitting_witness :
  snr no_exp (fit_to (2, 1, 4)) quiet time5 peak5 blank5 (2, 2) "gaussian"
      true false None "peak" = ([], Raise ValueError).
Proof.
  apply (equal_bounds_fail_before_fitting no_exp (fit_to (2, 1, 4)) quiet time5
           peak5 blank5 2 2 "gaussian" true false None "peak").
  left. reflexivity.
Defined.

(** C4 fails as stated. With the range (2, 0) on [time3] the call stops
    with ValueError, and no exception of the code is an InvalidRangeError;
    with the range (2^60, 4) on [time5], whose start is above its end, the
    window is (0, 4) and the solver is called. *)
Lemma invalid_range_counterexample :
  (0 <=? 2) = true /\
  (forall np_exp curve_fit matplotlib,
      snr np_exp curve_fit matplotlib time3 [0; 1; 0] [0; 1; 0] (2, 0)
          "gaussian" true false None "peak" = ([], Raise ValueError)) /\
  (forall np_exp curve_fit matplotlib,
      ~ raises_named "InvalidRangeError"
          (snr np_exp curve_fit matplotlib time3 [0; 1; 0] [0; 1; 0] (2, 0)
               "gaussian" true false None "peak")) /\
  (4 <=? 0x1p60) = true /\
  window time5 (0x1p60, 4) = Ok (0%nat, 4%nat) /\
  (forall np_exp curve_fit matplotlib,
      exists rest,
        events (snr np_exp curve_fit matplotlib time5 peak5 blank5 (0x1p60, 4)
                    "gaussian" true false None "peak")
        = CurveFit "lorentzian" [0; 1; 2; 3] [0; 1; 4; 1]
                   ((0x1p60 + 4) / 2, 1, 4) :: rest).
Proof.
  assert (Hrun : forall np_exp curve_fit matplotlib,
             snr np_exp curve_fit matplotlib time3 [0; 1; 0] [0; 1; 0] (2, 0)
                 "gaussian" true false None "peak" = ([], Raise ValueError)).
  { intros.
    apply (f64_collapsed_run _ _ _ _ _ _ _ _ _ _ _ _ 2 0); [reflexivity | lia]. }
  split; [reflexivity|]. split; [exact Hrun|]. split.
  - intros np_exp curve_fit matplotlib [e [He Hname]].
    rewrite Hrun in He. cbn in He. injection He as <-. discriminate.
  - split; [reflexivity|]. split; [reflexivity|].
    intros np_exp curve_fit matplotlib. unfold snr.
    change (window time5 (0x1p60, 4)) with (@Ok (nat * nat) (0%nat, 4%nat)).
    rewrite f64_bind_lift_ok.
    change (np_max (slice peak5 0 4)) with (@Ok float 4).
    rewrite f64_bind_lift_ok, f64_events_bind.
    eexists. reflexivity.
Qed.

(** ** Drawing, with a matplotlib that can fail *)

Section F64Drawing.

Variable np_exp : float -> float.
Variable curve_fit : solver.
Variable matplotlib : event -> result unit.

Lemma f64_outcome_call (ev : event) : outcome (call matplotlib ev) = matplotlib ev.
Proof. reflexivity. Qed.

Ltac step_call :=
  rewrite f64_outcome_bind, f64_outcome_call;
  match goal with
  | |- context [matplotlib ?ev] =>
      let H := fresh "Hcall" in
      destruct (matplotlib ev) as [[]|] eqn:H;
      [ | intros Hr; injection Hr as <-; eexists; exact H ]
  end.

Lemma f64_draw_raise plot plot_path title x y pl pg v e :
  x <> [] -> y <> [] ->
  outcome (draw np_exp matplotlib plot plot_path title x y pl pg v) = Raise e ->
  exists ev, matplotlib ev = Raise e.
Proof.
  intros Hx Hy. destruct plot; [|discriminate].
  destruct (f64_py_min_total x Hx) as [xlo Hxlo].
  destruct (f64_py_max_total x Hx) as [xhi Hxhi].
  destruct (f64_py_min_total y Hy) as [ylo Hylo].
  destruct (f64_py_max_total y Hy) as [yhi Hyhi].
  unfold draw. destruct pl as [[cl wl] hl], pg as [[cg wg] hg].
  do 8 step_call.
  rewrite Hxlo, f64_bind_lift_ok, Hxhi, f64_bind_lift_ok.
  step_call.
  rewrite Hylo, f64_bind_lift_ok, Hyhi, f64_bind_lift_ok.
  step_call.
  destruct plot_path as [path|]; [|discriminate].
  rewrite f64_outcome_call. intros Hr. eexists. exact Hr.
Qed.

Lemma f64_slices_nonempty (time_data signal_data : list float)
      (time_range : float * float) (w0 w1 : nat) (ymax : float) :
  window time_data time_range = Ok (w0, w1) ->
  np_max (slice signal_data w0 w1) = Ok ymax ->
  slice time_data w0 w1 <> [] /\ slice signal_data w0 w1 <> [].
Proof.
  intros Hwin Hymax.
  assert (Hy : slice signal_data w0 w1 <> [])
    by (eapply f64_np_max_nonempty; eassumption).
  split; [|exact Hy].
  apply slice_nonempty_inv in Hy. apply slice_nonempty; [tauto|].
  destruct time_range as [t0 t1].
  apply f64_window_ok in Hwin as [H0 _]. now apply f64_nearest_bound in H0.
Qed.

(** Every call either stops before the drawing, in the same way whatever
    is asked of the drawing, or has its value and only the drawing left. *)
Lemma f64_snr_outcome_cases time_data signal_data noise_data time_range
      line_shape sub_zero :
  (exists e, forall plot plot_path title,
        outcome (snr np_exp curve_fit matplotlib time_data signal_data
                     noise_data time_range line_shape sub_zero plot plot_path
                     title) = Raise e) \/
  (exists x y pl pg v,
      x <> [] /\ y <> [] /\
      forall plot plot_path title,
        outcome (snr np_exp curve_fit matplotlib time_data signal_data
                     noise_data time_range line_shape sub_zero plot plot_path
                     title)
        = match outcome (draw np_exp matplotlib plot plot_path title x y pl pg v)
          with
          | Ok _ => Ok v
          | Raise e => Raise e
          end).
Proof.
  destruct (window time_data time_range) as [[w0 w1]|e0] eqn:Hwin.
  2: { left. exists e0. intros. unfold snr. now rewrite Hwin. }
  destruct (np_max (slice signal_data w0 w1)) as [ymax|e1] eqn:Hymax.
  2: { left. exists e1. intros. unfold snr.
       now rewrite Hwin, f64_bind_lift_ok, Hymax. }
  destruct (f64_slices_nonempty _ _ _ _ _ _ Hwin Hymax) as [Hx Hy].
  destruct (curve_fit lorentzian (slice time_data w0 w1)
                      (slice signal_data w0 w1) (np_average time_range, 1, ymax))
    as [pl|e2] eqn:Hl.
  2: { left. exists e2. intros. unfold snr.
       rewrite Hwin, f64_bind_lift_ok, Hymax, f64_bind_lift_ok.
       unfold fit. now rewrite Hl. }
  destruct (curve_fit (gaussian np_exp) (slice time_data w0 w1)
                      (slice signal_data w0 w1) (np_average time_range, 1, ymax))
    as [pg|e3] eqn:Hg.
  2: { left. exists e3. intros. unfold snr.
       rewrite Hwin, f64_bind_lift_ok, Hymax, f64_bind_lift_ok.
       unfold fit. now rewrite Hl, Hg, f64_bind_ok. }
  destruct (dict_get [("lorentzian"%string, pl); ("gaussian"%string, pg)]
                     line_shape) as [[[c w] h]|e4] eqn:Hsel.
  2: { left. exists e4. intros. unfold snr.
       rewrite Hwin, f64_bind_lift_ok, Hymax, f64_bind_lift_ok.
       unfold fit. now rewrite Hl, Hg, !f64_bind_ok, Hsel. }
  destruct (nearest time_data (c - abs w * 10)) as [b|e5] eqn:Hb.
  2: { left. exists e5. intros. unfold snr.
       rewrite Hwin, f64_bind_lift_ok, Hymax, f64_bind_lift_ok.
       unfold fit. now rewrite Hl, Hg, !f64_bind_ok, Hsel, f64_bind_lift_ok, Hb. }
  destruct (nearest time_data (c + abs w * 10)) as [e|e6] eqn:He.
  2: { left. exists e6. intros. unfold snr.
       rewrite Hwin, f64_bind_lift_ok, Hymax, f64_bind_lift_ok.
       unfold fit.
       now rewrite Hl, Hg, !f64_bind_ok, Hsel, f64_bind_lift_ok, Hb,
         f64_bind_lift_ok, He. }
  destruct (py_max (slice noise_data b e)) as [hi|e7] eqn:Hhi.
  2: { left. exists e7. intros. unfold snr.
       rewrite Hwin, f64_bind_lift_ok, Hymax, f64_bind_lift_ok.
       unfold fit.
       now rewrite Hl, Hg, !f64_bind_ok, Hsel, f64_bind_lift_ok, Hb,
         f64_bind_lift_ok, He, f64_bind_lift_ok, Hhi. }
  destruct (py_min (slice noise_data b e)) as [lo|e8] eqn:Hlo.
  2: { left. exists e8. intros. unfold snr.
       rewrite Hwin, f64_bind_lift_ok, Hymax, f64_bind_lift_ok.
       unfold fit.
       now rewrite Hl, Hg, !f64_bind_ok, Hsel, f64_bind_lift_ok, Hb,
         f64_bind_lift_ok, He, f64_bind_lift_ok, Hhi, f64_bind_lift_ok, Hlo. }
  right. exists (slice time_data w0 w1), (slice signal_data w0 w1), pl, pg.
  eexists. split; [exact Hx|]. split; [exact Hy|].
  intros. unfold snr.
  rewrite Hwin, f64_bind_lift_ok, Hymax, f64_bind_lift_ok.
  unfold fit.
  rewrite Hl, Hg, !f64_bind_ok, Hsel, f64_bind_lift_ok, Hb, f64_bind_lift_ok, He,
    f64_bind_lift_ok, Hhi, f64_bind_lift_ok, Hlo, f64_bind_lift_ok.
  cbn [outcome snd]. rewrite f64_outcome_bind. reflexivity.
Qed.

(** X14. Drawing cannot change the value. A call that returns with
    plotting returns the same value without; a call that fails without
    plotting fails in the same way with it; and a call that returns
    without plotting either returns the same value with it or stops with
    an exception raised by a matplotlib call. *)
Theorem plot_returns_same_value time_data signal_data noise_data time_range
        line_shape sub_zero plot plot_path title plot_path' title' :
  (forall v,
      outcome (snr np_exp curve_fit matplotlib time_data signal_data noise_data
                   time_range line_shape sub_zero plot plot_path title) = Ok v ->
      outcome (snr np_exp curve_fit matplotlib time_data signal_data noise_data
                   time_range line_shape sub_zero false plot_path' title')
      = Ok v) /\
  (forall e,
      outcome (snr np_exp curve_fit matplotlib time_data signal_data noise_data
                   time_range line_shape sub_zero false plot_path' title')
      = Raise e ->
      outcome (snr np_exp curve_fit matplotlib time_data signal_data noise_data
                   time_range line_shape sub_zero plot plot_path title)
      = Raise e) /\
  (forall v,
      outcome (snr np_exp curve_fit matplotlib time_data signal_data noise_data
                   time_range line_shape sub_zero false plot_path' title')
      = Ok v ->
      outcome (snr np_exp curve_fit matplotlib time_data signal_data noise_data
                   time_range line_shape sub_zero plot plot_path title) = Ok v \/
      exists ev e,
        matplotlib ev = Raise e /\
        outcome (snr np_exp curve_fit matplotlib time_data signal_data
                     noise_data time_range line_shape sub_zero plot plot_path
                     title) = Raise e).
Proof.
  destruct (f64_snr_outcome_cases time_data signal_data noise_data time_range
              line_shape sub_zero)
    as [[e0 Hfail]|(x & y & pl & pg & v0 & Hx & Hy & Hrun)].
  - rewrite !Hfail. repeat split; intros; try discriminate; auto.
  - rewrite !Hrun. cbn [draw ret outcome snd].
    destruct (outcome (draw np_exp matplotlib plot plot_path title x y pl pg v0))
      as [[]|e] eqn:Hdraw.
    + repeat split; intros; try discriminate; auto.
    + destruct (f64_draw_raise _ _ _ _ _ _ _ _ _ Hx Hy Hdraw) as [ev Hev].
      repeat split; intros; try discriminate.
      right. exists ev, e. auto.
Qed.

End F64Drawing.

(** ** Constant noise on binary64 numbers *)

Lemma f64_sub_equal (x y : float) :
  (x =? y) = true ->
  Prim2SF (x - y) = S754_nan \/ exists s, Prim2SF (x - y) = S754_zero s.
Proof.
  rewrite eqb_spec, sub_spec. unfold SFeqb, SF64sub.
  destruct (Prim2SF x) as [sx|sx| |sx mx ex], (Prim2SF y) as [sy|sy| |sy my ey];
    cbn; try discriminate;
    try (destruct sx, sy; try discriminate; intros _; eauto; fail).
  intros H. right. exists false.
  assert (Heq : sx = sy /\ ex = ey /\ mx = my).
  { destruct sx, sy; try discriminate;
      destruct (Z.compare ex ey) eqn:He; try discriminate;
      apply Z.compare_eq in He;
      destruct (Pos.compare_cont Eq mx my) eqn:Hm; try discriminate;
      apply Pos.compare_eq in Hm; auto. }
  destruct Heq as (-> & -> & ->).
  now rewrite Z.sub_diag.
Qed.

Lemma f64_not_finite_spec (r : float) :
  (Prim2SF r = S754_nan \/ exists s, Prim2SF r = S754_infinity s) ->
  is_finite r = false.
Proof.
  intros H. unfold is_finite, is_nan, is_infinity.
  rewrite !eqb_spec, abs_spec.
  destruct H as [-> | [[] ->]]; vm_compute; reflexivity.
Qed.

Lemma f64_div_not_finite (a d : float) :
  (Prim2SF d = S754_nan \/ exists s, Prim2SF d = S754_zero s) ->
  is_finite (a / d) = false.
Proof.
  intros H. apply f64_not_finite_spec. rewrite div_spec. unfold SF64div.
  destruct H as [-> | [s ->]]; destruct (Prim2SF a); cbn; eauto.
Qed.

(** C6, as the code has it. When the largest and the smallest entry of the
    noise-window slice compare equal, the call without plotting raises
    nothing and returns a value that is not finite, an infinity or NaN;
    with plotting, a call that returns returns that same value. *)
Theorem constant_noise_not_finite np_exp curve_fit matplotlib time_data
        signal_data noise_data time_range line_shape sub_zero plot_path title
        pl pg c w h b e hi lo :
  fits np_exp curve_fit time_data signal_data time_range pl pg ->
  chosen line_shape pl pg (c, w, h) ->
  nearest time_data (c - abs w * 10) = Ok b ->
  nearest time_data (c + abs w * 10) = Ok e ->
  py_max (slice noise_data b e) = Ok hi ->
  py_min (slice noise_data b e) = Ok lo ->
  (hi =? lo) = true ->
  exists v,
    is_finite v = false /\
    outcome (snr np_exp curve_fit matplotlib time_data signal_data noise_data
                 time_range line_shape sub_zero false plot_path title) = Ok v /\
    forall plot v',
      outcome (snr np_exp curve_fit matplotlib time_data signal_data noise_data
                   time_range line_shape sub_zero plot plot_path title) = Ok v' ->
      v' = v.
Proof.
  intros Hfit Hsel Hb He Hhi Hlo Heq.
  exists (bool_plus_one sub_zero * h / (hi - lo)).
  assert (Hratio : peak_to_peak_ratio (bool_plus_one sub_zero) h
                                      (slice noise_data b e)
                   = Ok (bool_plus_one sub_zero * h / (hi - lo))).
  { unfold peak_to_peak_ratio. now rewrite Hhi, Hlo. }
  split; [apply f64_div_not_finite, f64_sub_equal, Heq|]. split.
  - rewrite <- Hratio.
    apply (f64_fits_outcome np_exp curve_fit matplotlib _ _ _ _ _ _ false _ _
             _ _ _ _ _ _ _ Hfit Hsel Hb He).
  - intros plot v' Hv.
    apply (f64_fits_outcome np_exp curve_fit matplotlib _ _ _ _ _ _ plot _ _
             _ _ _ _ _ _ _ Hfit Hsel Hb He) in Hv.
    rewrite Hratio in Hv. congruence.
Qed.

Lemma constant_noise_not_finite_witness :
  exists v,
    is_finite v = false /\
    outcome (snr no_exp (fit_to (2, 1, 4)) quiet time5 peak5 level5 (0, 4)
                 "gaussian" true false None "peak") = Ok v /\
    forall plot v',
      outcome (snr no_exp (fit_to (2, 1, 4)) quiet time5 peak5 level5 (0, 4)
                   "gaussian" true plot None "peak") = Ok v' ->
      v' = v.
Proof.
  apply (constant_noise_not_finite no_exp (fit_to (2, 1, 4)) quiet time5 peak5
           level5 (0, 4) "gaussian" true None "peak" (2, 1, 4) (2, 1, 4) 2 1 4
           0 4 1 1).
  - now apply (f64_time5_fits peak5 4).
  - left. split; reflexivity.
  - reflexivity.
  - reflexivity.
  - reflexivity.
  - reflexivity.
  - reflexivity.
Defined.

(** C6 fails on a flat signal over a flat blank. The parameters (2, 1, 0),
    which are the initial guess, reproduce the signal exactly; a solver
    that returns them makes the call return NaN, which is neither an
    exception nor an infinity; and so does any solver that returns a
    height of zero, as long as the noise window holds a point. *)
Lemma constant_noise_counterexample :
  lorentzian [0; 1; 2; 3] 2 1 0 = [0; 0; 0; 0] /\
  py_max (slice flat5 0 4) = Ok 0 /\ py_min (slice flat5 0 4) = Ok 0 /\
  is_infinity nan = false /\
  forall np_exp curve_fit matplotlib c w pg sub_zero b e,
    curve_fit lorentzian [0; 1; 2; 3] [0; 0; 0; 0] (2, 1, 0) = Ok (c, w, 0) ->
    curve_fit (gaussian np_exp) [0; 1; 2; 3] [0; 0; 0; 0] (2, 1, 0) = Ok pg ->
    nearest time5 (c - abs w * 10) = Ok b ->
    nearest time5 (c + abs w * 10) = Ok e ->
    (b < e)%nat ->
    outcome (snr np_exp curve_fit matplotlib time5 flat5 flat5 (0, 4)
                 "lorentzian" sub_zero false None "flat") = Ok nan /\
    ~ error_or_infinite
        (outcome (snr np_exp curve_fit matplotlib time5 flat5 flat5 (0, 4)
                      "lorentzian" sub_zero false None "flat")).
Proof.
  split; [reflexivity|]. split; [reflexivity|]. split; [reflexivity|].
  split; [reflexivity|].
  intros np_exp curve_fit matplotlib c w pg sub_zero b e Hl Hg Hb He Hbe.
  assert (Hfit : fits np_exp curve_fit time5 flat5 (0, 4) (c, w, 0) pg).
  { exists 0%nat, 4%nat, 0. repeat split; assumption. }
  assert (Hsel : chosen "lorentzian" (c, w, 0) pg (c, w, 0))
    by (right; split; reflexivity).
  assert (He5 : (e < 5)%nat) by (apply f64_nearest_bound in He; exact He).
  assert (Hout : outcome (snr np_exp curve_fit matplotlib time5 flat5 flat5
                              (0, 4) "lorentzian" sub_zero false None "flat")
                 = Ok nan).
  { rewrite (proj1 (f64_fits_outcome np_exp curve_fit matplotlib _ _ flat5
                      _ _ sub_zero false None "flat" _ _ _ _ _ _ _
                      Hfit Hsel Hb He)).
    destruct e as [|[|[|[|[|e]]]]]; try lia;
      destruct b as [|[|[|[|b]]]]; try lia;
      destruct sub_zero; reflexivity. }
  split; [exact Hout|]. rewrite Hout.
  intros [[err Herr]|[v [Hv Hinf]]]; [discriminate|].
  injection Hv as <-. discriminate.
Qed.

(** With the initial guess returned unchanged the noise window is the
    first four points, and the call returns NaN. *)
Example flat_signal_returns_nan :
  outcome (snr no_exp (fit_to (2, 1, 0)) quiet time5 flat5 flat5 (0, 4)
               "lorentzian" false false None "flat") = Ok nan.
Proof. reflexivity. Qed.

(** ** A peak that points down, on binary64 numbers *)

(** The trace [dip5] is to the last bit the Lorentzian of centre 2, width
    2 and height -1; a solver that returns these parameters makes the
    call return -1 over a blank of amplitude 2. *)
Example negative_peak_binary64 :
  lorentzian time5 2 2 (- 1) = dip5 /\
  outcome (snr no_exp (fit_to (2, 2, - 1)) quiet time5 dip5 blank5 (0, 4)
               "lorentzian" true false None "dip") = Ok (- 1) /\
  (- 1 <? 0) = true.
Proof. repeat split; reflexivity. Qed.

(** ** Drawing that fails *)

(** A peak of height 1.75 * 2^1023: the upper limit of the vertical axis,
    max(y_data) * 1.2, is infinite, [set_ylim] refuses it, and a call that
    returns 2 without plotting stops with ValueError with it. *)
Example overflowing_limit_stops_plot :
  (0x1.cp1023 * c1_2 =? infinity) = true /\
  outcome (snr no_exp (fit_to (2, 1, 4)) strict_limits time5 huge_peak5 blank5
               (0, 4) "lorentzian" false false None "peak") = Ok 2 /\
  outcome (snr no_exp (fit_to (2, 1, 4)) strict_limits time5 huge_peak5 blank5
               (0, 4) "lorentzian" false true None "peak") = Raise ValueError /\
  strict_limits (SetYlim 0 (0x1.cp1023 * c1_2)) = Raise ValueError.
Proof. repeat split; reflexivity. Qed.
